(** * DigitalHealthNotes: the paginated ClinicalTrials.gov fetcher

    A shallow embedding of [query_ctgov_api] (src/utils/DHTermSearch.py)
    together with the fragments of Python, pandas and requests it relies on,
    followed by the properties of the fetcher.

    Layout: [Py] holds the string built-ins, [Pandas] the table operations,
    [Requests] the transport (a monad that logs every request), and
    [DHTermSearch] the function itself; [PMC] holds the PubMed Central
    functions of the same file and [Figures] the helpers of
    src/utils/figures.py that do not draw.  Lemmas come after all
    definitions. *)

From Stdlib Require Import ZArith List String Ascii Bool Lia DecimalString
  Permutation.
Import ListNotations.

Open Scope string_scope.
Open Scope Z_scope.

(* ================================================================== *)
(** ** Python built-ins *)

Module Py.

Definition tab : ascii := "009"%char.
Definition newline : ascii := "010"%char.

(** The one-character strings written ["\t"] and ["\n"] in the source. *)
Definition TAB : string := String tab EmptyString.
Definition NL : string := String newline EmptyString.

(** [sep.join(xs)] *)
Fixpoint join (sep : string) (xs : list string) : string :=
  match xs with
  | [] => ""
  | x :: rest =>
      match rest with
      | [] => x
      | _ :: _ => x ++ sep ++ join sep rest
      end
  end.

(** [s.split(sep)] for a one-character separator: the pieces between the
    occurrences of [sep]; the empty string splits into one empty piece. *)
Fixpoint split (sep : ascii) (s : string) : list string :=
  match s with
  | EmptyString => [EmptyString]
  | String a s' =>
      if Ascii.eqb a sep then EmptyString :: split sep s'
      else match split sep s' with
           | [] => [String a EmptyString]
           | w :: ws => String a w :: ws
           end
  end.

(** [sep in s] for a one-character [sep]. *)
Fixpoint contains (sep : ascii) (s : string) : bool :=
  match s with
  | EmptyString => false
  | String a s' => Ascii.eqb a sep || contains sep s'
  end.

End Py.

(* ================================================================== *)
(** ** pandas: cells, frames and the operations the fetcher calls *)

Module Pandas.

(** The integers that a float64 holds exactly reach from [-2^53] to
    [2^53]. *)
Definition exact_bound : Z := 9007199254740992.

Definition holds_exactly (z : Z) : bool := Z.abs z <=? exact_bound.

(** A number with an integral value.  pandas holds it as an integer, or as
    the float of the same value when its column also has a missing value (a
    column of integers with a gap is float64).  The two are one number here,
    as they are for [drop_duplicates], and the value is bounded so that the
    conversion from one to the other changes nothing. *)
Record number : Type := mkNumber {
  value : Z;
  value_exact : holds_exactly value = true
}.

(** The number of value [z]; an integer out of range has no number and is
    given zero. *)
Definition number_of (z : Z) : number :=
  match holds_exactly z as b return holds_exactly z = b -> number with
  | true => fun H => mkNumber z H
  | false => fun _ => mkNumber 0 eq_refl
  end eq_refl.

Coercion number_of : Z >-> number.

(** What a cell of the table can hold: the missing marker ([np.nan]), a
    string, a number (the server's [Rank]) or a list of strings (how the
    registry delivers every requested field). *)
Inductive cell : Type :=
| NaN
| Str (s : string)
| Int (n : number)
| PyList (xs : list string).

Fixpoint list_eqb {A : Type} (eqb : A -> A -> bool) (l1 l2 : list A) : bool :=
  match l1, l2 with
  | [], [] => true
  | x :: l1', y :: l2' => eqb x y && list_eqb eqb l1' l2'
  | _, _ => false
  end.

(** Cell equality as [replace] and [drop_duplicates] see it: the missing
    marker matches itself. *)
Definition cell_eqb (c d : cell) : bool :=
  match c, d with
  | NaN, NaN => true
  | Str s, Str t => String.eqb s t
  | Int n, Int m => Z.eqb (value n) (value m)
  | PyList xs, PyList ys => list_eqb String.eqb xs ys
  | _, _ => false
  end.

Definition row : Type := list cell.
Definition row_eqb : row -> row -> bool := list_eqb cell_eqb.

(** A JSON object of [StudyFields]: field name to value, in key order. *)
Definition study : Type := list (string * cell).

Record DataFrame : Type := mkFrame {
  columns : list string;
  values : list row
}.

(** [pd.DataFrame()] *)
Definition empty : DataFrame := mkFrame [] [].

Definition mem (k : string) (ks : list string) : bool :=
  existsb (String.eqb k) ks.

(** Value of key [k] in a dict, the missing marker when absent. *)
Definition lookup (k : string) (d : study) : cell :=
  match find (fun kv => String.eqb k (fst kv)) d with
  | Some kv => snd kv
  | None => NaN
  end.

(** Column labels grow in order of first appearance. *)
Definition add_keys (cols ks : list string) : list string :=
  fold_left (fun acc k => if mem k acc then acc else (acc ++ [k])%list) ks cols.

(** [pd.DataFrame(records)] for a list of dicts: the columns are the keys
    in order of first appearance, a key absent from a dict gives [NaN].  A
    column of integers that gets a [NaN] is stored as float64: every
    [number] is held exactly there, so its cells stay the numbers they
    were. *)
Definition of_records (recs : list study) : DataFrame :=
  let cols := fold_left (fun acc r => add_keys acc (map fst r)) recs [] in
  mkFrame cols (map (fun r => map (fun c => lookup c r) cols) recs).

(** Rows of [df] laid out on the labels [cols]. *)
Definition reindex (df : DataFrame) (cols : list string) : list row :=
  map (fun r => map (fun c => lookup c (combine (columns df) r)) cols)
      (values df).

(** [pd.concat([df1, df2])]: union of the columns, rows of [df1] then rows
    of [df2], missing cells filled with [NaN].  As in [of_records], a column
    of integers that one of the two frames lacks becomes float64 and keeps
    the value of every [number]. *)
Definition concat (df1 df2 : DataFrame) : DataFrame :=
  let cols := add_keys (columns df1) (columns df2) in
  mkFrame cols (reindex df1 cols ++ reindex df2 cols)%list.

Definition drop_col (name : string) (cols : list string) (r : row) : row :=
  map snd (filter (fun kv => negb (String.eqb (fst kv) name)) (combine cols r)).

(** [del df[name]]: [None] stands for the [KeyError] pandas raises when no
    column has that label. *)
Definition delitem (df : DataFrame) (name : string) : option DataFrame :=
  if mem name (columns df)
  then Some (mkFrame (filter (fun c => negb (String.eqb c name)) (columns df))
                     (map (drop_col name (columns df)) (values df)))
  else None.

Definition map_cells (f : cell -> cell) (df : DataFrame) : DataFrame :=
  mkFrame (columns df) (map (map f) (values df)).

(** [df.replace(to_replace, value)] with scalar arguments and no regex: a
    cell is replaced when it is equal to [to_replace] as a whole (a string
    cell is not searched for occurrences of [to_replace]); with [np.nan] as
    [to_replace] the missing cells are the ones replaced. *)
Definition replace (to_replace value : cell) (df : DataFrame) : DataFrame :=
  map_cells (fun c => if cell_eqb c to_replace then value else c) df.

(** [df.applymap(f)] *)
Definition applymap (f : cell -> cell) (df : DataFrame) : DataFrame :=
  map_cells f df.

(** Rows not seen before, in order: [seen] collects the rows kept so far. *)
Fixpoint dedup_from {A : Type} (eqb : A -> A -> bool) (seen l : list A)
  : list A :=
  match l with
  | [] => []
  | x :: l' =>
      if existsb (eqb x) seen then dedup_from eqb seen l'
      else x :: dedup_from eqb (x :: seen) l'
  end.

(** [df.empty]: no column or no row. *)
Definition is_empty (df : DataFrame) : bool :=
  match columns df, values df with
  | _ :: _, _ :: _ => false
  | _, _ => true
  end.

(** [df.drop_duplicates()]: the first occurrence of every row is kept; an
    empty frame is handed back as it is, so a frame with rows but no column
    keeps all its rows. *)
Definition drop_duplicates (df : DataFrame) : DataFrame :=
  if is_empty df then df
  else mkFrame (columns df) (dedup_from row_eqb [] (values df)).

End Pandas.

(* ================================================================== *)
(** ** requests: the transport *)

Module Requests.
Import Pandas.

(** The [params] dict handed to [requests.get], with the URL it goes to.
    [field] is present only when a search field was given. *)
Record request : Type := mkRequest {
  url : string;
  expr : string;
  fmt : string;
  fields : string;
  min_rnk : Z;
  max_rnk : Z;
  field : option string
}.

(** The part of the JSON answer the fetcher reads
    ([info["StudyFieldsResponse"]]). *)
Record StudyFieldsResponse : Type := mkResponse {
  NStudiesReturned : Z;
  NStudiesFound : Z;
  StudyFields : list study
}.

Definition transport : Type := request -> StudyFieldsResponse.

(** A computation that talks to the registry: it reads the transport and
    appends every request it issues to a log. *)
Definition Net (A : Type) : Type :=
  transport -> list request -> A * list request.

Definition ret {A : Type} (a : A) : Net A := fun _ log => (a, log).

Definition bind {A B : Type} (m : Net A) (k : A -> Net B) : Net B :=
  fun srv log => let (a, log') := m srv log in k a srv log'.

(** [requests.get(url, params).json()] *)
Definition get (p : request) : Net StudyFieldsResponse :=
  fun srv log => (srv p, (log ++ [p])%list).

(** Run from an empty log. *)
Definition run {A : Type} (m : Net A) (srv : transport) : A * list request :=
  m srv [].

End Requests.

Notation "x <- m ;; k" := (Requests.bind m (fun x => k))
  (at level 61, m at next level, right associativity).

(* ================================================================== *)
(** ** src/utils/DHTermSearch.py *)

Module DHTermSearch.
Import Pandas Requests.

(** What a call ends with: [return] (nothing, a message, or the table), an
    exception, or the page loop not finishing within its fuel (shown below
    never to happen). *)
Inductive pyvalue : Type :=
| PyNone
| PyString (s : string)
| PyFrame (df : DataFrame).

Inductive outcome : Type :=
| Return (v : pyvalue)
| KeyError (key : string)
| OutOfFuel.

Definition too_many : string := "Too many search results to return! Max 20".
Definition no_studies : string := "No studies found".

(** The arguments of a call.  [verbose] is left out: no live line of the
    source reads it. *)
Section Call.
Variable query : string.
Variable return_fields : list string.
Variable n_lim : option Z.
Variable study_url : string.
Variable search_field : option string.

(** The [params] dict of lines 39-45 and 69-75. *)
Definition params (curr_min curr_max : Z) : request :=
  mkRequest study_url query "JSON" (Py.join "," return_fields)
            curr_min curr_max search_field.

(** Lines 64-84: the [while n_total > curr_max] loop over the state
    [(curr_min, curr_max, clinical_df)].  The [if] of line 63 tests the same
    condition once more and adds nothing. *)
Fixpoint page_loop (fuel : nat) (n_total curr_min curr_max : Z)
         (clinical_df : DataFrame) : Net (option (Z * Z * DataFrame)) :=
  if n_total >? curr_max then
    match fuel with
    | O => ret None
    | S fuel' =>
        let curr_min := curr_min + 999 in
        let curr_max := Z.min n_total (curr_max + 999) in
        info <- get (params curr_min curr_max) ;;
        let clinical_df :=
          if NStudiesReturned info >? 0
          then concat clinical_df (of_records (StudyFields info))
          else clinical_df in
        page_loop fuel' n_total curr_min curr_max clinical_df
    end
  else ret (Some (curr_min, curr_max, clinical_df)).

(** Every turn of the loop moves [curr_max] at least one rank closer to
    [n_total], so this many turns are enough. *)
Definition loop_fuel (n_total curr_max : Z) : nat :=
  Z.to_nat (n_total - curr_max).

(** Line 95: [lambda x: "\t".join(x) if type(x)==list else x] *)
Definition flatten (x : cell) : cell :=
  match x with
  | PyList xs => Str (Py.join Py.TAB xs)
  | _ => x
  end.

(** Lines 92-100 (after the [del]). *)
Definition normalize (df : DataFrame) : DataFrame :=
  let df := replace NaN (Str "") df in
  let df := replace (Str Py.TAB) (Str " ") df in
  let df := replace (Str Py.NL) (Str " ") df in
  let df := applymap flatten df in
  let df := replace NaN (Str "") df in
  drop_duplicates df.

(** What lines 92-96 come to on one cell: the missing marker becomes the
    empty string, a string that is exactly one tab or one newline becomes a
    space, a list is joined with tabs, anything else is kept
    ([normalize_values] below). *)
Definition clean_cell (c : cell) : cell :=
  match c with
  | NaN => Str ""
  | Str s =>
      if String.eqb s Py.TAB then Str " "
      else if String.eqb s Py.NL then Str " "
      else Str s
  | Int n => Int n
  | PyList xs => Str (Py.join Py.TAB xs)
  end.

(** A cell that is neither the missing marker nor a list. *)
Definition scalar (c : cell) : Prop :=
  match c with
  | Str _ | Int _ => True
  | NaN | PyList _ => False
  end.

(** Lines 91-102. *)
Definition clean_up (clinical_df : DataFrame) : outcome :=
  match delitem clinical_df "Rank" with
  | None => KeyError "Rank"
  | Some df => Return (PyFrame (normalize df))
  end.

Definition query_ctgov_api : Net outcome :=
  if (String.length query =? 0)%nat then ret (Return PyNone)
  else if (20 <? List.length return_fields)%nat
  then ret (Return (PyString too_many))
  else
    let clinical_df := empty in
    let curr_min := 1 in
    let curr_max := 1000 in
    info <- get (params curr_min curr_max) ;;
    if NStudiesReturned info >? 0 then
      let n_total := NStudiesFound info in
      let clinical_df := of_records (StudyFields info) in
      let n_total :=
        match n_lim with
        | Some lim => Z.min n_total lim
        | None => n_total
        end in
      st <- page_loop (loop_fuel n_total curr_max)
                      n_total curr_min curr_max clinical_df ;;
      match st with
      | None => ret OutOfFuel
      | Some (_, _, clinical_df) => ret (clean_up clinical_df)
      end
    else ret (Return (PyString no_studies)).

(** *** The loop taken apart

    The windows the loop visits from the state [(curr_min, curr_max)], and
    what one turn does to the accumulated table.  [page_loop] is shown below
    to be the fold of [append_page] over [page_windows]. *)
Fixpoint page_windows (fuel : nat) (n_total curr_min curr_max : Z)
  : list (Z * Z) :=
  if n_total >? curr_max then
    match fuel with
    | O => []
    | S fuel' =>
        let curr_min := curr_min + 999 in
        let curr_max := Z.min n_total (curr_max + 999) in
        (curr_min, curr_max) :: page_windows fuel' n_total curr_min curr_max
    end
  else [].

Definition request_of (w : Z * Z) : request := params (fst w) (snd w).

Definition append_page (srv : transport) (clinical_df : DataFrame)
           (w : Z * Z) : DataFrame :=
  let info := srv (request_of w) in
  if NStudiesReturned info >? 0
  then concat clinical_df (of_records (StudyFields info))
  else clinical_df.

(** [n_total] after lines 53 and 60-61. *)
Definition clipped_total (srv : transport) : Z :=
  let n_total := NStudiesFound (srv (params 1 1000)) in
  match n_lim with
  | Some lim => Z.min n_total lim
  | None => n_total
  end.

(** The windows after the first one. *)
Definition later_windows (srv : transport) : list (Z * Z) :=
  page_windows (loop_fuel (clipped_total srv) 1000) (clipped_total srv) 1 1000.

(** [clinical_df] when the loop is left: the first page and what the later
    windows appended. *)
Definition accumulated (srv : transport) : DataFrame :=
  fold_left (append_page srv) (later_windows srv)
            (of_records (StudyFields (srv (params 1 1000)))).

End Call.

(** The rank window of a request. *)
Definition window (p : request) : Z * Z := (min_rnk p, max_rnk p).

(** A window that spans a whole page of 1000 ranks. *)
Definition whole_page (w : Z * Z) : Prop := snd w - fst w + 1 = 1000.

(** Every request of [log] but the first starts [gap] ranks after the upper
    bound of the one before, and ends at the lesser of that upper bound plus
    999 and [n_total]. *)
Definition advances_by (gap n_total : Z) (log : list request) : Prop :=
  forall l1 p q l2, log = (l1 ++ p :: q :: l2)%list ->
    min_rnk q = max_rnk p + gap /\
    max_rnk q = Z.min (max_rnk p + 999) n_total.

(** One turn to the next: the new window starts on the old upper bound. *)
Definition step_ok (n_total : Z) (v w : Z * Z) : Prop :=
  fst w = snd v /\ snd w = Z.min (snd v + 999) n_total.

(** Rank [k] lies in the window of some request of [log]. *)
Definition covered (log : list request) (k : Z) : Prop :=
  exists p, In p log /\ min_rnk p <= k <= max_rnk p.

(** Neighbours of a list are related by [R]. *)
Inductive chained {A : Type} (R : A -> A -> Prop) : list A -> Prop :=
| chained_nil : chained R []
| chained_one : forall x, chained R [x]
| chained_cons : forall x y l, R x y -> chained R (y :: l) ->
                               chained R (x :: y :: l).

End DHTermSearch.

(* ================================================================== *)
(** ** A registry fixture

    A transport that serves a fixed table [db] (one row of cells per study,
    laid out on the field names [flds]) the way the registry does: ranks are
    1-based, a window is inclusive at both ends, every study carries its
    [Rank], and [NStudiesFound] is the size of the table. *)

Module Fixture.
Import Pandas Requests.

Section Registry.
Variable flds : list string.
Variable db : list row.

Definition study_at (i : Z) : study :=
  ("Rank", Int i) :: combine flds (nth (Z.to_nat (i - 1)) db []).

(** The ranks [lo, lo+1, ..., hi]. *)
Definition ranks (lo hi : Z) : list Z :=
  map (fun k => lo + Z.of_nat k) (seq 0 (Z.to_nat (hi - lo + 1))).

Definition registry : transport := fun p =>
  let lo := Z.max 1 (min_rnk p) in
  let hi := Z.min (Z.of_nat (List.length db)) (max_rnk p) in
  let rows := map study_at (ranks lo hi) in
  mkResponse (Z.of_nat (List.length rows)) (Z.of_nat (List.length db)) rows.

End Registry.

(** Concrete tables: registry identifiers and field names by number. *)
Definition decimal (k : nat) : string :=
  NilEmpty.string_of_uint (Nat.to_uint k).

Definition nct (k : nat) : string := "NCT" ++ decimal k.

Definition field_names (n : nat) : list string :=
  map (fun k => "Field" ++ decimal k) (seq 1 n).

(** [n] studies, study [k] holding the one-element list [[nct k]]. *)
Definition numbered (n : nat) : list row :=
  map (fun k => [PyList [nct k]]) (seq 1 n).

(** [srv], except that the window starting at rank [lo] comes back with no
    study returned. *)
Definition silent_at (lo : Z) (srv : transport) : transport := fun p =>
  if min_rnk p =? lo then mkResponse 0 (NStudiesFound (srv p)) [] else srv p.

(** 1001 studies that differ from one another as delivered, two of them
    only in how an absent condition is written: the empty list and the list
    holding the empty string. *)
Definition nearly_alike : list row :=
  [PyList []] :: [PyList [""]] :: numbered 999.

(** Pairwise different, as a test. *)
Fixpoint distinct {A : Type} (eqb : A -> A -> bool) (l : list A) : bool :=
  match l with
  | [] => true
  | x :: l' => negb (existsb (eqb x) l') && distinct eqb l'
  end.

Definition ctgov : string := "https://ClinicalTrials.gov/api/query/study_fields?".

End Fixture.

(* ================================================================== *)
(** ** More of the fetcher's vocabulary *)

Module Pages.
Import Pandas Requests DHTermSearch.

Section Call.
Variable query : string.
Variable return_fields : list string.
Variable n_lim : option Z.
Variable study_url : string.
Variable search_field : option string.

(** The studies that reach the table: those of the first page and those of
    every later page that reports at least one study returned. *)
Definition accepted_studies (srv : transport) : list study :=
  (StudyFields (srv (params query return_fields study_url search_field 1 1000))
   ++ flat_map StudyFields
        (filter (fun info => NStudiesReturned info >? 0)
                (map srv
                     (map (request_of query return_fields study_url
                                      search_field)
                          (later_windows query return_fields n_lim study_url
                                         search_field srv)))))%list.

End Call.

(** A table whose labels are pairwise different and whose rows all have one
    cell per label. *)
Definition rectangular (df : DataFrame) : Prop :=
  NoDup (columns df) /\
  Forall (fun r => List.length r = List.length (columns df)) (values df).

(** The first [n] studies of a registry table. *)
Definition first_studies (n : Z) (db : list row) : list row :=
  firstn (Z.to_nat n) db.

(** The row of a study on the labels [cols]: its value under each label,
    the missing marker where it has none. *)
Definition project (cols : list string) (st : study) : row :=
  map (fun c => lookup c st) cols.

(** The table [df] holds one row for each study of [studies], in order, and
    has a label for every key they carry. *)
Definition represents (df : DataFrame) (studies : list study) : Prop :=
  values df = map (project (columns df)) studies /\
  forall st k, In st studies -> In k (map fst st) -> In k (columns df).

(** What the clean-up is there to do to a cell: a missing value becomes the
    empty string, a list its items joined with tabs, a number stays, and a
    string that holds neither a tab nor a newline stays.  Nothing is said of
    a string that holds one. *)
Definition tidy (c c' : cell) : Prop :=
  match c with
  | NaN => c' = Str ""
  | PyList xs => c' = Str (Py.join Py.TAB xs)
  | Int n => c' = Int n
  | Str s =>
      Py.contains Py.tab s = false -> Py.contains Py.newline s = false ->
      c' = Str s
  end.

End Pages.

(* ================================================================== *)
(** ** Python: dicts and splitting on a separator string *)

Module PyText.

(** [s.startswith(pre)] *)
Fixpoint startswith (pre s : string) : bool :=
  match pre with
  | EmptyString => true
  | String a pre' =>
      match s with
      | EmptyString => false
      | String b s' => Ascii.eqb a b && startswith pre' s'
      end
  end.

(** [sep in s] for a separator string. *)
Fixpoint occurs (sep s : string) : bool :=
  startswith sep s ||
  match s with
  | EmptyString => false
  | String _ s' => occurs sep s'
  end.

(** [s.split(sep)] for a non-empty [sep], scanning from the left: [piece] is
    the text since the last separator, [skip] counts the characters of a
    separator still to step over. *)
Fixpoint split_go (sep : string) (skip : nat) (piece s : string)
  : list string :=
  match s with
  | EmptyString => [piece]
  | String a s' =>
      match skip with
      | S k => split_go sep k piece s'
      | O =>
          if startswith sep s
          then piece :: split_go sep (String.length sep - 1) "" s'
          else split_go sep 0 (piece ++ String a "") s'
      end
  end.

Definition split_by (sep s : string) : list string := split_go sep 0 "" s.

(** Values of the request payloads: strings and integers. *)
Inductive pyval : Type :=
| PStr (s : string)
| PInt (n : Z).

(** A dict with string keys, in insertion order. *)
Definition pydict : Type := list (string * pyval).

(** [d[k]], [None] when the key is absent. *)
Fixpoint getitem (k : string) (d : pydict) : option pyval :=
  match d with
  | [] => None
  | (k', v) :: d' => if String.eqb k k' then Some v else getitem k d'
  end.

(** [d[k] = v]: an existing key keeps its place, a new key goes last. *)
Fixpoint setitem (k : string) (v : pyval) (d : pydict) : pydict :=
  match d with
  | [] => [(k, v)]
  | (k', v') :: d' =>
      if String.eqb k k' then (k, v) :: d' else (k', v') :: setitem k v d'
  end.

(** [d.update(other)]: the items of [other] are set one after the other. *)
Definition update (d other : pydict) : pydict :=
  fold_left (fun acc kv => setitem (fst kv) (snd kv) acc) other d.

Definition keys (d : pydict) : list string := map fst d.

End PyText.

(* ================================================================== *)
(** ** src/utils/DHTermSearch.py: the PubMed Central functions *)

Module PMC.
Import PyText.

Definition base_url : string := "https://eutils.ncbi.nlm.nih.gov/entrez/eutils/".

(** A request as [requests.get] receives it: the URL and the [params]. *)
Definition call : Type := string * pydict.

Section Esearch.
(** The parsed JSON answer is handed back as it is, whatever it holds. *)
Variable json : Type.

(** Lines 111-117: the defaults, then [search_payload.update(search_params)]. *)
Definition search_payload (query : string) (search_params : pydict) : pydict :=
  update [("db", PStr "pmc"); ("term", PStr query);
          ("retmode", PStr "json"); ("retmax", PInt 9999)]
         search_params.

(** Lines 104-122.  [esearch] stands for [requests.get(...).json()]; the
    second component lists the requests issued. *)
Definition get_pmc_ids (query : string) (search_params : pydict)
           (esearch : string -> pydict -> json) : json * list call :=
  let search_payload := search_payload query search_params in
  let search_data := esearch (base_url ++ "esearch.fcgi") search_payload in
  (search_data, [(base_url ++ "esearch.fcgi", search_payload)]).

End Esearch.

(** One entry of [values_dict], its keys in the order of line 154. *)
Record article : Type := mkArticle {
  pmc_id : string;
  title : string;
  text : string;
  abstract : string
}.

Section Efetch.
(** [bs4.BeautifulSoup(markup, "xml").find(name, attrs=attrs)] followed by
    [get_text()]: the text of the first element of that name (and with that
    attribute), [None] when the markup has no such element. *)
Variable find_text : string -> option (string * string) -> string -> option string.

(** Lines 142-154: one piece of the answer to one entry. *)
Definition parse_article (article_xml : string) : article :=
  let text_bs := find_text "body" None article_xml in
  let abstract_bs := find_text "abstract" None article_xml in
  let title_bs := find_text "article-title" None article_xml in
  let pmc_id_bs :=
    find_text "article-id" (Some ("pub-id-type", "pmc")) article_xml in
  let text := match text_bs with Some t => t | None => "" end in
  let abstract := match abstract_bs with Some t => t | None => "" end in
  let title := match title_bs with Some t => t | None => "" end in
  let pmc_id := match pmc_id_bs with Some t => t | None => "" end in
  mkArticle pmc_id title text abstract.

Definition fetch_payload (uid_list : list string) : pydict :=
  [("db", PStr "pmc"); ("id", PStr (Py.join "," uid_list));
   ("retmode", PStr "xml"); ("rettype", PStr "full")].

(** Lines 124-156.  [efetch] stands for [requests.get(...).text]. *)
Definition fetch_full_pmc_text (uid_list : list string)
           (efetch : string -> pydict -> string) : list article * list call :=
  let fetch_url := base_url ++ "efetch.fcgi" in
  let fetch_payload := fetch_payload uid_list in
  let fetch_response := efetch fetch_url fetch_payload in
  let article_text := split_by "</article>" fetch_response in
  (map parse_article article_text, [(fetch_url, fetch_payload)]).

End Efetch.

(** The answer of the server for the articles [arts], each closed by its
    end tag, followed by [tail]. *)
Definition closed_articles (arts : list string) (tail : string) : string :=
  fold_right (fun a rest => a ++ "</article>" ++ rest) tail arts.

End PMC.

(* ================================================================== *)
(** ** src/utils/figures.py: the functions that do not draw *)

Module Figures.

(** *** [mask_small_group] *)

Section Mask.
(** The float type and [int / int]. *)
Variable float : Type.
Variable truediv : Z -> Z -> float.
(** What a row holds besides [count] and [proportion]. *)
Variable A : Type.

(** A row of [demographics]: [count] is an int64 column. *)
Record group : Type := mkGroup {
  other : A;
  count : Z
}.

Inductive count_cell : Type :=
| Count (n : Z)
| Label (s : string).

Inductive proportion_cell : Type :=
| Proportion (x : float)
| NoProportion.

(** A row of the result; [NoProportion] is [np.nan]. *)
Record masked : Type := mkMasked {
  m_other : A;
  m_count : count_cell;
  m_proportion : proportion_cell
}.

(** The int64 that an integer wraps around to. *)
Definition wrap_int64 (z : Z) : Z :=
  (z + 9223372036854775808) mod 18446744073709551616 - 9223372036854775808.

(** [demographics["count"].sum()]: the sum of an int64 column is an int64,
    and wraps around when it leaves the range. *)
Definition count_sum (demographics : list group) : Z :=
  wrap_int64 (fold_left Z.add (map count demographics) 0).

(** The values an int64 column can hold. *)
Definition is_int64 (z : Z) : Prop :=
  -9223372036854775808 <= z <= 9223372036854775807.

(** Lines 11-24. *)
Definition mask_small_group (demographics : list group) (min_n : Z)
  : list masked :=
  let mask_values := filter (fun g => count g <? min_n) demographics in
  let mask_values :=
    map (fun g => mkMasked (other g) (Label "<10") NoProportion) mask_values in
  let all_values := filter (fun g => count g >=? min_n) demographics in
  let all_values :=
    map (fun g => mkMasked (other g) (Count (count g))
                           (Proportion (truediv (count g)
                                                (count_sum demographics))))
        all_values in
  (all_values ++ mask_values)%list.

End Mask.

(** *** [retrieve_dh_sentences] *)

Section Sentences.
(** [re.compile(term).search(sentence)] finds a match. *)
Variable search : string -> string -> bool.
(** [list(set(xs))]: the items of [xs], each once, in an order the language
    does not fix. *)
Variable list_set : list string -> list string.

(** Lines 52-59: the loop over [enumerate(curr_note)], from position [i] with
    [rest] still to visit. *)
Fixpoint scan (term : string) (curr_note : list string) (i : nat)
         (rest curr_sent : list string) : list string :=
  match rest with
  | [] => curr_sent
  | sentence :: rest' =>
      let curr_sent :=
        if search term sentence then
          let curr_sent := (curr_sent ++ [sentence])%list in
          let curr_sent :=
            if (0 <? i)%nat
            then (curr_sent ++ [nth (i - 1) curr_note ""])%list
            else curr_sent in
          if (i <? List.length curr_note - 1)%nat
          then (curr_sent ++ [nth (i + 1) curr_note ""])%list
          else curr_sent
        else curr_sent in
      scan term curr_note (S i) rest' curr_sent
  end.

(** Lines 26-69. *)
Definition retrieve_dh_sentences (notes : list (list string)) (term : string)
           (extend : bool) : list (list string) :=
  if extend
  then map (fun curr_note => list_set (scan term curr_note 0 curr_note []))
           notes
  else map (fun curr_note => filter (search term) curr_note) notes.

(** Position [i] of [note] matches and [s] is the sentence there, the one
    before it or the one after it. *)
Definition near_match (term : string) (note : list string) (s : string)
  : Prop :=
  exists i,
    (i < List.length note)%nat /\
    search term (nth i note "") = true /\
    (s = nth i note ""
     \/ ((0 < i)%nat /\ s = nth (i - 1) note "")
     \/ ((i + 1 < List.length note)%nat /\ s = nth (i + 1) note "")).

End Sentences.

End Figures.

(* ================================================================== *)
(** * Properties *)

(** ** The page loop *)

Module LoopFacts.
Import Pandas Requests DHTermSearch.

Section Loop.
Variable query : string.
Variable return_fields : list string.
Variable n_lim : option Z.
Variable study_url : string.
Variable search_field : option string.

Local Abbreviation params := (params query return_fields study_url search_field).
Local Abbreviation request_of :=
  (request_of query return_fields study_url search_field).
Local Abbreviation page_loop :=
  (page_loop query return_fields study_url search_field).
Local Abbreviation append_page :=
  (append_page query return_fields study_url search_field).

Lemma window_request_of (w : Z * Z) : window (request_of w) = w.
Proof. destruct w; reflexivity. Qed.

Lemma map_window_request_of (ws : list (Z * Z)) :
  map window (map request_of ws) = ws.
Proof.
  induction ws as [|w ws IH]; simpl; [reflexivity|].
  now rewrite window_request_of, IH.
Qed.

(** With [loop_fuel] turns at hand the loop leaves through its condition:
    it is the fold of [append_page] over [page_windows], it logs exactly
    those windows, and on exit [n_total <= curr_max]. *)
Lemma page_loop_run (srv : transport) :
  forall fuel n_total curr_min curr_max df log,
    (loop_fuel n_total curr_max <= fuel)%nat ->
    exists a b,
      page_loop fuel n_total curr_min curr_max df srv log =
        (Some (a, b,
               fold_left (append_page srv)
                         (page_windows fuel n_total curr_min curr_max) df),
         (log ++ map request_of
                     (page_windows fuel n_total curr_min curr_max))%list)
      /\ n_total <= b.
Proof.
  unfold loop_fuel.
  induction fuel as [|fuel IH]; intros n a b df log Hfuel; simpl.
  - destruct (n >? b) eqn:E; [apply Z.gtb_lt in E; lia|].
    exists a, b. rewrite app_nil_r. split; [reflexivity|].
    rewrite Z.gtb_ltb in E. apply Z.ltb_ge in E. exact E.
  - destruct (n >? b) eqn:E.
    + apply Z.gtb_lt in E.
      destruct (IH n (a + 999) (Z.min n (b + 999))
                   (append_page srv df (a + 999, Z.min n (b + 999)))
                   (log ++ [params (a + 999) (Z.min n (b + 999))])%list)
        as (a' & b' & Hrun & Hexit); [lia|].
      exists a', b'. split; [|exact Hexit].
      unfold bind, get. simpl.
      rewrite <- app_assoc in Hrun. exact Hrun.
    + exists a, b. rewrite app_nil_r. split; [reflexivity|].
      rewrite Z.gtb_ltb in E. apply Z.ltb_ge in E. exact E.
Qed.

(** The shape of the windows: all but the last end below [n_total], the
    last ends on it. *)
Lemma page_windows_shape :
  forall fuel n_total curr_min curr_max,
    (loop_fuel n_total curr_max <= fuel)%nat ->
    curr_max < n_total ->
    exists ws w,
      page_windows fuel n_total curr_min curr_max = (ws ++ [w])%list /\
      snd w = n_total /\
      Forall (fun v => snd v < n_total) ws.
Proof.
  unfold loop_fuel.
  induction fuel as [|fuel IH]; intros n a b Hfuel Hlt; [lia|].
  simpl. destruct (n >? b) eqn:E; [|rewrite Z.gtb_ltb in E;
                                     apply Z.ltb_ge in E; lia].
  destruct (Z_lt_le_dec (b + 999) n) as [Hfar | Hnear].
  - destruct (IH n (a + 999) (Z.min n (b + 999))) as (ws & w & Hws & Hw & Hall);
      [lia | lia |].
    exists ((a + 999, Z.min n (b + 999)) :: ws), w. rewrite Hws.
    split; [reflexivity|]. split; [exact Hw|].
    constructor; [simpl; lia | exact Hall].
  - exists [], (a + 999, Z.min n (b + 999)).
    replace (Z.min n (b + 999)) with n by lia.
    split; [|split; [reflexivity | constructor]].
    destruct fuel; simpl; rewrite Z.gtb_ltb, Z.ltb_irrefl; reflexivity.
Qed.

Lemma page_windows_nil fuel n_total curr_min curr_max :
  n_total <= curr_max -> page_windows fuel n_total curr_min curr_max = [].
Proof.
  intros H. destruct fuel; simpl;
    (destruct (n_total >? curr_max) eqn:E; [apply Z.gtb_lt in E; lia|]);
    reflexivity.
Qed.

Lemma page_windows_chained :
  forall fuel n_total curr_min curr_max,
    curr_max = curr_min + 999 ->
    chained (step_ok n_total)
            ((curr_min, curr_max)
               :: page_windows fuel n_total curr_min curr_max).
Proof.
  induction fuel as [|fuel IH]; intros n a b Hinv; simpl.
  - destruct (n >? b); constructor.
  - destruct (n >? b) eqn:E; [|constructor].
    apply Z.gtb_lt in E.
    constructor.
    + unfold step_ok; simpl. split; [lia | lia].
    + destruct (Z_lt_le_dec (b + 999) n) as [Hfar | Hnear].
      * apply IH. lia.
      * rewrite page_windows_nil by lia. constructor.
Qed.

End Loop.

Section Chains.
Context {A : Type} (R : A -> A -> Prop).

Lemma chained_tail x l : chained R (x :: l) -> chained R l.
Proof. inversion 1; subst; [constructor | assumption]. Qed.

Lemma chained_adjacent l :
  chained R l ->
  forall l1 x y l2, l = (l1 ++ x :: y :: l2)%list -> R x y.
Proof.
  intros Hc l1. revert l Hc.
  induction l1 as [|z l1 IH]; intros l Hc x y l2 ->; simpl in Hc.
  - inversion Hc; subst; assumption.
  - eapply IH; [eapply chained_tail; exact Hc | reflexivity].
Qed.

End Chains.

Lemma last_cons_indep {A : Type} (l : list A) (x d d' : A) :
  last (x :: l) d = last (x :: l) d'.
Proof.
  revert x. induction l as [|y l IH]; intros x; [reflexivity|].
  change (last (y :: l) d = last (y :: l) d'). apply IH.
Qed.

(** A chain of windows, each starting where the one before ends, leaves no
    rank between the first lower bound and the last upper bound out. *)
Lemma chained_cover (n_total : Z) :
  forall ws w0 k,
    chained (step_ok n_total) (w0 :: ws) ->
    fst w0 <= k <= snd (last (w0 :: ws) w0) ->
    exists w, In w (w0 :: ws) /\ fst w <= k <= snd w.
Proof.
  induction ws as [|w1 ws IH]; intros w0 k Hc Hk.
  - exists w0. simpl in *. split; [now left | lia].
  - destruct (Z_le_gt_dec k (snd w0)) as [Hin | Hout].
    + exists w0. split; [now left | lia].
    + inversion Hc as [| |x y l [Hfst _] Hc']; subst.
      destruct (IH w1 k Hc') as (w & Hw & Hkw).
      * split; [lia|].
        rewrite (last_cons_indep ws w1 w1 w0).
        change (last (w1 :: ws) w0) with (last (w0 :: w1 :: ws) w0). lia.
      * exists w. split; [now right | exact Hkw].
Qed.

End LoopFacts.

(** ** The four ways a call ends *)

Module RunFacts.
Import Pandas Requests DHTermSearch LoopFacts.

Section Run.
Variable query : string.
Variable return_fields : list string.
Variable n_lim : option Z.
Variable study_url : string.
Variable search_field : option string.
Variable srv : transport.

Local Abbreviation call :=
  (query_ctgov_api query return_fields n_lim study_url search_field).
Local Abbreviation first_request :=
  (params query return_fields study_url search_field 1 1000).
Local Abbreviation request_of :=
  (request_of query return_fields study_url search_field).
Local Abbreviation accumulated :=
  (accumulated query return_fields n_lim study_url search_field srv).
Local Abbreviation later_windows :=
  (later_windows query return_fields n_lim study_url search_field srv).
Local Abbreviation clipped_total :=
  (clipped_total query return_fields n_lim study_url search_field srv).

Lemma len_query_zero : (String.length query =? 0)%nat = true <-> query = "".
Proof.
  destruct query; simpl; split; intros H; try reflexivity; discriminate.
Qed.

Lemma run_empty_query : query = "" -> run call srv = (Return PyNone, []).
Proof.
  intros Hq. unfold run, query_ctgov_api.
  apply len_query_zero in Hq. rewrite Hq. reflexivity.
Qed.

Lemma run_too_many :
  query <> "" -> (20 < List.length return_fields)%nat ->
  run call srv = (Return (PyString too_many), []).
Proof.
  intros Hq Hlen. unfold run, query_ctgov_api.
  destruct (String.length query =? 0)%nat eqn:E;
    [apply len_query_zero in E; contradiction|].
  apply Nat.ltb_lt in Hlen. rewrite Hlen. reflexivity.
Qed.

Lemma run_no_studies :
  query <> "" -> (List.length return_fields <= 20)%nat ->
  NStudiesReturned (srv first_request) <= 0 ->
  run call srv = (Return (PyString no_studies), [first_request]).
Proof.
  intros Hq Hlen Hzero. unfold run, query_ctgov_api.
  destruct (String.length query =? 0)%nat eqn:E;
    [apply len_query_zero in E; contradiction|].
  destruct (20 <? List.length return_fields)%nat eqn:L;
    [apply Nat.ltb_lt in L; lia|].
  unfold bind, get. simpl.
  destruct (NStudiesReturned (srv first_request) >? 0) eqn:R;
    [apply Z.gtb_lt in R; lia | reflexivity].
Qed.

(** Past the first page the call is the fold of [append_page] over the later
    windows followed by the clean-up; the loop never runs out of fuel. *)
Lemma run_pages :
  query <> "" -> (List.length return_fields <= 20)%nat ->
  0 < NStudiesReturned (srv first_request) ->
  run call srv =
    (clean_up accumulated, first_request :: map request_of later_windows).
Proof.
  intros Hq Hlen Hpos. unfold run, query_ctgov_api.
  destruct (String.length query =? 0)%nat eqn:E;
    [apply len_query_zero in E; contradiction|].
  destruct (20 <? List.length return_fields)%nat eqn:L;
    [apply Nat.ltb_lt in L; lia|].
  unfold bind at 1. unfold get. simpl.
  destruct (NStudiesReturned (srv first_request) >? 0) eqn:R;
    [|rewrite Z.gtb_ltb in R; apply Z.ltb_ge in R; lia].
  fold clipped_total.
  destruct (page_loop_run query return_fields study_url search_field srv
              (loop_fuel clipped_total 1000) clipped_total 1 1000
              (of_records (StudyFields (srv first_request)))
              [first_request] (le_n _)) as (a & b & Hrun & _).
  unfold bind. rewrite Hrun. reflexivity.
Qed.

(** Whatever the arguments, one of the four. *)
Lemma run_cases :
  (query = "" /\ run call srv = (Return PyNone, []))
  \/ (query <> "" /\ (20 < List.length return_fields)%nat /\
      run call srv = (Return (PyString too_many), []))
  \/ (query <> "" /\ (List.length return_fields <= 20)%nat /\
      NStudiesReturned (srv first_request) <= 0 /\
      run call srv = (Return (PyString no_studies), [first_request]))
  \/ (query <> "" /\ (List.length return_fields <= 20)%nat /\
      0 < NStudiesReturned (srv first_request) /\
      run call srv =
        (clean_up accumulated, first_request :: map request_of later_windows)).
Proof.
  destruct (string_dec query "") as [Hq | Hq];
    [left; split; [exact Hq | now apply run_empty_query]|].
  right.
  destruct (le_lt_dec (List.length return_fields) 20) as [Hlen | Hlen];
    [|left; repeat split; [exact Hq | exact Hlen | now apply run_too_many]].
  right.
  destruct (Z_le_gt_dec (NStudiesReturned (srv first_request)) 0)
    as [Hzero | Hpos].
  - left. repeat split; try assumption. now apply run_no_studies.
  - right. repeat split; try assumption; [lia|]. apply run_pages; [assumption..|lia].
Qed.

(** The page loop always leaves through its condition. *)
Lemma run_finishes : fst (run call srv) <> OutOfFuel.
Proof.
  destruct run_cases
    as [[_ H] | [(_ & _ & H) | [(_ & _ & _ & H) | (_ & _ & _ & H)]]];
    rewrite H; simpl; try discriminate.
  unfold clean_up. destruct (delitem accumulated "Rank"); discriminate.
Qed.

End Run.
End RunFacts.

(* ================================================================== *)
(** * The fetcher's contract *)

Import Pandas Requests DHTermSearch Fixture.

(** ** Input validation *)

(** C9: a call with an empty query string returns nothing ([None], which is
    neither a table nor one of the two messages) and issues no request. *)
Theorem C9_empty_query_returns_nothing :
  forall return_fields n_lim study_url search_field srv,
    run (query_ctgov_api "" return_fields n_lim study_url search_field) srv
    = (Return PyNone, []).
Proof.
  intros. apply RunFacts.run_empty_query. reflexivity.
Qed.

(** C3 as stated fails: with an empty query and 21 return fields the call
    returns nothing instead of the too-many-fields message, because the
    empty-query test of line 24 comes first. *)
Lemma C3_counterexample :
  (20 < List.length (field_names 21))%nat /\
  fst (run (query_ctgov_api "" (field_names 21) None ctgov None)
           (registry (field_names 21) []))
  <> Return (PyString too_many).
Proof.
  split; [vm_compute; lia | vm_compute; discriminate].
Qed.

(** C3 (amended): a call with a non-empty query and more than 20 return
    fields returns the too-many-fields message and issues no request. *)
Theorem C3_too_many_return_fields :
  forall query return_fields n_lim study_url search_field srv,
    query <> "" ->
    (20 < List.length return_fields)%nat ->
    run (query_ctgov_api query return_fields n_lim study_url search_field) srv
    = (Return (PyString too_many), []).
Proof.
  intros. now apply RunFacts.run_too_many.
Qed.

Lemma C3_too_many_return_fields_witness :
  "heart" <> "" /\
  (20 < List.length (field_names 21))%nat /\
  run (query_ctgov_api "heart" (field_names 21) None ctgov None)
      (registry (field_names 21) [])
  = (Return (PyString too_many), []).
Proof.
  split; [discriminate|].
  split; [vm_compute; lia|].
  apply (C3_too_many_return_fields "heart" (field_names 21) None ctgov None
           (registry (field_names 21) [])).
  - discriminate.
  - vm_compute; lia.
Defined.

(** C4: when the answer to the first request reports zero studies returned,
    the call returns the no-studies message, not a table, and that request
    is the only one issued. *)
Theorem C4_no_studies_found :
  forall query return_fields n_lim study_url search_field srv p rest,
    snd (run (query_ctgov_api query return_fields n_lim study_url search_field)
             srv) = p :: rest ->
    NStudiesReturned (srv p) = 0 ->
    run (query_ctgov_api query return_fields n_lim study_url search_field) srv
    = (Return (PyString no_studies), [p]).
Proof.
  intros query return_fields n_lim study_url search_field srv p rest Hlog Hzero.
  destruct (RunFacts.run_cases query return_fields n_lim study_url
              search_field srv)
    as [[_ Hrun] | [(_ & _ & Hrun) | [(_ & _ & _ & Hrun) | (_ & _ & Hpos & Hrun)]]];
    rewrite Hrun in Hlog |- *; simpl in Hlog; try discriminate.
  - injection Hlog as <- _. reflexivity.
  - injection Hlog as <- _. lia.
Qed.

Lemma C4_no_studies_found_witness :
  let call := query_ctgov_api "heart" ["NCTId"] None ctgov None in
  let srv := registry ["NCTId"] [] in
  let p := params "heart" ["NCTId"] ctgov None 1 1000 in
  snd (run call srv) = [p] /\
  NStudiesReturned (srv p) = 0 /\
  run call srv = (Return (PyString no_studies), [p]).
Proof.
  intros call srv p.
  split; [reflexivity|]. split; [reflexivity|].
  apply (C4_no_studies_found "heart" ["NCTId"] None ctgov None srv p []);
    reflexivity.
Defined.

(** ** Page windows *)

Module WindowFacts.
Import LoopFacts RunFacts.

Section Windows.
Variable query : string.
Variable return_fields : list string.
Variable n_lim : option Z.
Variable study_url : string.
Variable search_field : option string.
Variable srv : transport.

Local Abbreviation call :=
  (query_ctgov_api query return_fields n_lim study_url search_field).
Local Abbreviation first_request :=
  (params query return_fields study_url search_field 1 1000).
Local Abbreviation request_of :=
  (request_of query return_fields study_url search_field).
Local Abbreviation later_windows :=
  (later_windows query return_fields n_lim study_url search_field srv).
Local Abbreviation n_total :=
  (clipped_total query return_fields n_lim study_url search_field srv).

Hypothesis query_given : query <> "".
Hypothesis fields_fit : (List.length return_fields <= 20)%nat.
Hypothesis first_page : 0 < NStudiesReturned (srv first_request).

Lemma log_eq :
  snd (run call srv) = first_request :: map request_of later_windows.
Proof. now rewrite run_pages. Qed.

Lemma windows_eq :
  map window (snd (run call srv)) = (1, 1000) :: later_windows.
Proof.
  rewrite log_eq. simpl. now rewrite map_window_request_of.
Qed.

Lemma windows_chained :
  chained (step_ok n_total) (map window (snd (run call srv))).
Proof.
  rewrite windows_eq. apply page_windows_chained. reflexivity.
Qed.

Lemma log_advances : advances_by 0 n_total (snd (run call srv)).
Proof.
  intros l1 p q l2 Hlog.
  destruct (chained_adjacent _ _ windows_chained (map window l1)
              (window p) (window q) (map window l2)) as [Hlo Hhi].
  - rewrite Hlog, map_app. reflexivity.
  - simpl in Hlo, Hhi. split; [lia | exact Hhi].
Qed.

Lemma log_single :
  n_total <= 1000 -> snd (run call srv) = [first_request].
Proof.
  intros Hsmall. rewrite log_eq. unfold DHTermSearch.later_windows.
  now rewrite page_windows_nil.
Qed.

Lemma log_shape :
  1000 < n_total ->
  exists ps p,
    snd (run call srv) = (first_request :: ps ++ [p])%list /\
    max_rnk p = n_total /\
    Forall (fun r => max_rnk r < n_total) ps.
Proof.
  intros Hbig.
  destruct (page_windows_shape (loop_fuel n_total 1000) n_total 1 1000
              (le_n _) Hbig) as (ws & w & Hws & Hw & Hall).
  exists (map request_of ws), (request_of w).
  rewrite log_eq. unfold DHTermSearch.later_windows. rewrite Hws, map_app.
  split; [reflexivity|]. split; [exact Hw|].
  apply Forall_map. exact Hall.
Qed.

Lemma log_covers :
  1000 < n_total -> forall k, 1 <= k <= n_total -> covered (snd (run call srv)) k.
Proof.
  intros Hbig k Hk.
  destruct (log_shape Hbig) as (ps & p & Hlog & Hp & _).
  pose proof windows_chained as Hc. pose proof windows_eq as Hw.
  rewrite Hw in Hc.
  destruct (chained_cover n_total later_windows (1, 1000) k Hc)
    as (w & Hin & Hkw).
  - rewrite <- Hw, Hlog. simpl map.
    rewrite map_app. simpl map.
    rewrite app_comm_cons, last_last. simpl. lia.
  - rewrite <- Hw in Hin. apply in_map_iff in Hin.
    destruct Hin as (r & <- & Hr). exists r. split; [exact Hr | exact Hkw].
Qed.

End Windows.
End WindowFacts.

(** C1 as stated fails: with 1500 studies found the second window starts on
    rank 1000, the upper bound of the first, not on rank 1001. *)
Lemma C1_counterexample :
  ~ advances_by 1 1500
      (snd (run (query_ctgov_api "heart" ["NCTId"] None ctgov None)
                (registry ["NCTId"] (numbered 1500)))).
Proof.
  intros H.
  destruct (H [] (params "heart" ["NCTId"] ctgov None 1 1000)
              (params "heart" ["NCTId"] ctgov None 1000 1500) [])
    as [Hlo _].
  - vm_compute. reflexivity.
  - vm_compute in Hlo. discriminate.
Qed.

(** C1 (amended): when the total [n_total] exceeds the page size, the first
    window is [1, 1000]; every later window starts on the upper bound of the
    window before it (consecutive windows share exactly that one rank) and
    ends at the lesser of that upper bound plus 999 and [n_total]; the last
    window ends on [n_total]; and every rank of [1, n_total] lies in some
    window, so there is no gap. *)
Theorem C1_windows_overlap_in_one_rank :
  forall query return_fields n_lim study_url search_field srv,
    let first_request := params query return_fields study_url search_field 1 1000 in
    let n_total :=
      clipped_total query return_fields n_lim study_url search_field srv in
    let log :=
      snd (run (query_ctgov_api query return_fields n_lim study_url
                                search_field) srv) in
    query <> "" ->
    (List.length return_fields <= 20)%nat ->
    0 < NStudiesReturned (srv first_request) ->
    1000 < n_total ->
    advances_by 0 n_total log
    /\ (exists ps p, log = (first_request :: ps ++ [p])%list
                     /\ max_rnk p = n_total)
    /\ (forall k, 1 <= k <= n_total -> covered log k).
Proof.
  intros query return_fields n_lim study_url search_field srv
         first_request n_total log Hq Hlen Hpos Hbig.
  split; [now apply WindowFacts.log_advances|].
  split; [|now apply WindowFacts.log_covers].
  destruct (WindowFacts.log_shape query return_fields n_lim study_url
              search_field srv Hq Hlen Hpos Hbig) as (ps & p & Hlog & Hp & _).
  exists ps, p. split; [exact Hlog | exact Hp].
Qed.

Lemma C1_windows_overlap_in_one_rank_witness :
  let srv := registry ["NCTId"] (numbered 2500) in
  let log := snd (run (query_ctgov_api "heart" ["NCTId"] None ctgov None) srv) in
  map window log = [(1, 1000); (1000, 1999); (1999, 2500)] /\
  advances_by 0 2500 log /\
  (forall k, 1 <= k <= 2500 -> covered log k).
Proof.
  intros srv log.
  split; [vm_compute; reflexivity|].
  destruct (C1_windows_overlap_in_one_rank "heart" ["NCTId"] None ctgov None srv)
    as (Hadv & _ & Hcov).
  - discriminate.
  - simpl; lia.
  - vm_compute; reflexivity.
  - vm_compute; reflexivity.
  - split; [exact Hadv | exact Hcov].
Defined.

(** C6 as stated fails: with a limit of 1500 on a registry of 2500 studies
    the second window is [1000, 1500], cut at the limit instead of spanning a
    whole page. *)
Lemma C6_counterexample :
  let log :=
    snd (run (query_ctgov_api "heart" ["NCTId"] (Some 1500) ctgov None)
             (registry ["NCTId"] (numbered 2500))) in
  map window log = [(1, 1000); (1000, 1500)] /\
  ~ Forall whole_page (map window log).
Proof.
  intros log.
  assert (Hw : map window log = [(1, 1000); (1000, 1500)])
    by (vm_compute; reflexivity).
  split; [exact Hw|].
  rewrite Hw. intros H.
  inversion H as [|w ws _ Hrest]; subst.
  inversion Hrest as [|w' ws' Hcut _]; subst.
  unfold whole_page in Hcut. simpl in Hcut. discriminate.
Qed.

(** C6 (amended): with a limit [lim] the total is clipped to the lesser of
    [NStudiesFound] and [lim]; the first request always asks for the whole
    window [1, 1000], whatever the limit; further requests are issued exactly
    while the window upper bound is below the clipped total, and the last
    upper bound is the greater of 1000 and the clipped total: later windows
    are cut at the clipped total instead of spanning whole pages, so ranks
    above the limit are requested only when the limit is below 1000. *)
Theorem C6_limit_clips_total_and_windows :
  forall query return_fields lim study_url search_field srv,
    let first_request := params query return_fields study_url search_field 1 1000 in
    let n_total := Z.min (NStudiesFound (srv first_request)) lim in
    let log :=
      snd (run (query_ctgov_api query return_fields (Some lim) study_url
                                search_field) srv) in
    query <> "" ->
    (List.length return_fields <= 20)%nat ->
    0 < NStudiesReturned (srv first_request) ->
    clipped_total query return_fields (Some lim) study_url search_field srv
    = n_total
    /\ (exists rest, log = first_request :: rest)
    /\ (exists ps p, log = (ps ++ [p])%list
                     /\ Forall (fun r => max_rnk r < n_total) ps
                     /\ n_total <= max_rnk p
                     /\ max_rnk p = Z.max 1000 n_total).
Proof.
  intros query return_fields lim study_url search_field srv
         first_request n_total log Hq Hlen Hpos.
  split; [reflexivity|].
  change n_total
    with (clipped_total query return_fields (Some lim) study_url search_field
                        srv).
  set (n := clipped_total _ _ _ _ _ _).
  destruct (Z_lt_le_dec 1000 n) as [Hbig | Hsmall].
  - destruct (WindowFacts.log_shape query return_fields (Some lim) study_url
                search_field srv Hq Hlen Hpos Hbig) as (ps & p & Hlog & Hp & Hall).
    fold log in Hlog. fold n in Hp, Hall.
    split; [exists (ps ++ [p])%list; exact Hlog|].
    exists (first_request :: ps), p. rewrite Hlog.
    split; [reflexivity|].
    split; [constructor; [simpl; lia | exact Hall]|].
    lia.
  - pose proof (WindowFacts.log_single query return_fields (Some lim) study_url
                  search_field srv Hq Hlen Hpos Hsmall) as Hlog.
    fold log in Hlog.
    split; [exists []; exact Hlog|].
    exists [], first_request. rewrite Hlog.
    split; [reflexivity|]. split; [constructor|]. simpl. lia.
Qed.

Lemma C6_limit_clips_total_and_windows_witness :
  let srv := registry ["NCTId"] (numbered 2500) in
  let log :=
    snd (run (query_ctgov_api "heart" ["NCTId"] (Some 1500) ctgov None) srv) in
  clipped_total "heart" ["NCTId"] (Some 1500) ctgov None srv = 1500 /\
  exists ps p, log = (ps ++ [p])%list
               /\ Forall (fun r => max_rnk r < 1500) ps
               /\ 1500 <= max_rnk p
               /\ max_rnk p = 1500.
Proof.
  intros srv log.
  destruct (C6_limit_clips_total_and_windows "heart" ["NCTId"] 1500 ctgov None
              srv) as (Hclip & _ & Hlast).
  - discriminate.
  - simpl; lia.
  - vm_compute; reflexivity.
  - split; [exact Hclip | exact Hlast].
Defined.

(** ** Table operations *)

Module PandasFacts.

Lemma list_eqb_eq {A : Type} (eqb : A -> A -> bool) :
  (forall x y, eqb x y = true <-> x = y) ->
  forall l1 l2, list_eqb eqb l1 l2 = true <-> l1 = l2.
Proof.
  intros Heqb. induction l1 as [|x l1 IH]; intros [|y l2]; simpl;
    try (split; [discriminate | discriminate]); [tauto|].
  rewrite andb_true_iff, Heqb, IH.
  split; [intros [-> ->]; reflexivity | intros [= -> ->]; auto].
Qed.

(** Two numbers of the same value are the same number. *)
Lemma number_eq (n m : number) : value n = value m -> n = m.
Proof.
  destruct n as [x Hx], m as [y Hy]. simpl. intros ->.
  f_equal. apply Eqdep_dec.UIP_dec. exact Bool.bool_dec.
Qed.

Lemma value_number_of (z : Z) :
  holds_exactly z = true -> value (number_of z) = z.
Proof.
  intros H. unfold number_of.
  generalize (eq_refl (holds_exactly z)).
  generalize (holds_exactly z) at 2 3.
  intros b. destruct b; intros E; [reflexivity | congruence].
Qed.

Lemma cell_eqb_eq (c d : cell) : cell_eqb c d = true <-> c = d.
Proof.
  destruct c, d; simpl; try (split; [discriminate | discriminate]);
    try tauto.
  - rewrite String.eqb_eq. split; [intros ->; reflexivity | intros [= ->]; auto].
  - rewrite Z.eqb_eq.
    split; [intros H; f_equal; now apply number_eq | intros [= ->]; auto].
  - rewrite (list_eqb_eq String.eqb String.eqb_eq).
    split; [intros ->; reflexivity | intros [= ->]; auto].
Qed.

Lemma row_eqb_eq (r1 r2 : row) : row_eqb r1 r2 = true <-> r1 = r2.
Proof. apply list_eqb_eq. exact cell_eqb_eq. Qed.

Lemma mem_In (k : string) (ks : list string) : mem k ks = true <-> In k ks.
Proof.
  unfold mem. rewrite existsb_exists. split.
  - intros (x & Hx & E). apply String.eqb_eq in E. now subst.
  - intros H. exists k. split; [exact H | apply String.eqb_refl].
Qed.

(** *** Dropping duplicates *)

Section Dedup.
Context {A : Type} (eqb : A -> A -> bool).
Hypothesis eqb_eq : forall x y, eqb x y = true <-> x = y.

Lemma seen_In (x : A) (seen : list A) :
  existsb (eqb x) seen = true <-> In x seen.
Proof.
  rewrite existsb_exists. split.
  - intros (y & Hy & E). apply eqb_eq in E. now subst.
  - intros H. exists x. split; [exact H | now apply eqb_eq].
Qed.

Lemma seen_not_In (x : A) (seen : list A) :
  existsb (eqb x) seen = false <-> ~ In x seen.
Proof.
  rewrite <- seen_In. destruct (existsb (eqb x) seen); split; congruence.
Qed.

Lemma dedup_In (l seen : list A) (x : A) :
  In x (dedup_from eqb seen l) <-> In x l /\ ~ In x seen.
Proof.
  revert seen. induction l as [|y l IH]; intros seen; simpl; [tauto|].
  destruct (existsb (eqb y) seen) eqn:E.
  - apply seen_In in E. rewrite IH. split.
    + intros [H1 H2]. auto.
    + intros [[-> | H1] H2]; [contradiction | auto].
  - apply seen_not_In in E. simpl. rewrite IH. simpl. split.
    + intros [-> | [H1 H2]]; [auto | split; [auto | intuition]].
    + intros [[-> | H1] H2]; [auto|].
      destruct (eqb y x) eqn:Exy; [apply eqb_eq in Exy; auto|].
      right. split; [exact H1|]. intros [-> | H3]; [|contradiction].
      assert (eqb x x = true) by now apply eqb_eq. congruence.
Qed.

Lemma dedup_NoDup (l seen : list A) : NoDup (dedup_from eqb seen l).
Proof.
  revert seen. induction l as [|y l IH]; intros seen; simpl; [constructor|].
  destruct (existsb (eqb y) seen); [apply IH|].
  constructor; [|apply IH].
  rewrite dedup_In. simpl. intuition.
Qed.

(** Only membership in [seen] matters. *)
Lemma dedup_ext (l s1 s2 : list A) :
  (forall x, In x s1 <-> In x s2) ->
  dedup_from eqb s1 l = dedup_from eqb s2 l.
Proof.
  revert s1 s2. induction l as [|y l IH]; intros s1 s2 Hs; simpl;
    [reflexivity|].
  assert (E : existsb (eqb y) s1 = existsb (eqb y) s2).
  { destruct (existsb (eqb y) s2) eqn:E2.
    - apply seen_In. apply Hs. now apply seen_In.
    - apply seen_not_In. rewrite Hs. now apply seen_not_In. }
  rewrite E. destruct (existsb (eqb y) s2); [now apply IH|].
  f_equal. apply IH. intros x. simpl. now rewrite Hs.
Qed.

Lemma dedup_app (l1 l2 seen : list A) :
  dedup_from eqb seen (l1 ++ l2) =
  (dedup_from eqb seen l1 ++ dedup_from eqb (l1 ++ seen) l2)%list.
Proof.
  revert seen. induction l1 as [|y l1 IH]; intros seen; simpl; [reflexivity|].
  destruct (existsb (eqb y) seen) eqn:E.
  - rewrite IH. f_equal. apply dedup_ext. intros x. simpl.
    rewrite !in_app_iff. apply seen_In in E. split; [auto|].
    intros [-> | H]; auto.
  - simpl. rewrite IH. do 2 f_equal. apply dedup_ext. intros x. simpl.
    rewrite !in_app_iff. simpl. tauto.
Qed.

(** Rows all new and pairwise different are all kept. *)
Lemma dedup_fresh (l seen : list A) :
  NoDup l -> (forall x, In x l -> ~ In x seen) ->
  dedup_from eqb seen l = l.
Proof.
  revert seen. induction l as [|y l IH]; intros seen Hnd Hnew; simpl;
    [reflexivity|].
  inversion Hnd as [|? ? Hy Hnd']; subst.
  assert (E : existsb (eqb y) seen = false)
    by (apply seen_not_In; apply Hnew; now left).
  rewrite E. f_equal. apply IH; [exact Hnd'|].
  intros x Hx [-> | Hs]; [contradiction|].
  apply (Hnew x); [now right | exact Hs].
Qed.

End Dedup.

(** Dropping duplicates commutes with a map that is injective on the rows
    at hand. *)
Lemma dedup_map {A B : Type} (eqbA : A -> A -> bool) (eqbB : B -> B -> bool)
      (f : A -> B) (P : A -> Prop) :
  (forall x y, eqbA x y = true <-> x = y) ->
  (forall x y, eqbB x y = true <-> x = y) ->
  (forall x y, P x -> P y -> f x = f y -> x = y) ->
  forall l seen,
    Forall P l -> Forall P seen ->
    dedup_from eqbB (map f seen) (map f l) = map f (dedup_from eqbA seen l).
Proof.
  intros HA HB Hinj.
  induction l as [|x l IH]; intros seen Hl Hseen; simpl; [reflexivity|].
  inversion Hl as [|? ? Hx Hl']; subst.
  assert (E : existsb (eqbB (f x)) (map f seen) = existsb (eqbA x) seen).
  { destruct (existsb (eqbA x) seen) eqn:E1.
    - apply (seen_In eqbB HB). apply in_map. now apply (seen_In eqbA HA).
    - apply (seen_not_In eqbB HB). intros Hin.
      apply (seen_not_In eqbA HA) in E1. apply E1.
      apply in_map_iff in Hin. destruct Hin as (y & Hfy & Hy).
      rewrite Forall_forall in Hseen.
      rewrite (Hinj x y Hx (Hseen y Hy)); [exact Hy | now symmetry]. }
  rewrite E. destruct (existsb (eqbA x) seen); [now apply IH|].
  simpl. f_equal. apply (IH (x :: seen)); [exact Hl' | now constructor].
Qed.

(** *** Clean-up, cell by cell *)

Lemma clean_cell_pipeline (c : cell) :
  (fun c => if cell_eqb c NaN then Str "" else c)
    (flatten
       ((fun c => if cell_eqb c (Str Py.NL) then Str " " else c)
          ((fun c => if cell_eqb c (Str Py.TAB) then Str " " else c)
             ((fun c => if cell_eqb c NaN then Str "" else c) c))))
  = clean_cell c.
Proof.
  destruct c as [|s|n|xs]; try reflexivity.
  unfold clean_cell. simpl.
  destruct (String.eqb s Py.TAB) eqn:E1; [reflexivity|].
  simpl. destruct (String.eqb s Py.NL) eqn:E2; reflexivity.
Qed.

(** The frame the five cell-wise steps of [normalize] hand to
    [drop_duplicates]. *)
Lemma normalize_steps (df : DataFrame) :
  normalize df
  = drop_duplicates (mkFrame (columns df) (map (map clean_cell) (values df))).
Proof.
  unfold normalize, replace, applymap, map_cells. simpl. f_equal. f_equal.
  rewrite !map_map. apply map_ext. intros r.
  rewrite !map_map. apply map_ext. intros c. apply clean_cell_pipeline.
Qed.

Lemma normalize_columns (df : DataFrame) :
  columns (normalize df) = columns df.
Proof.
  rewrite normalize_steps. unfold drop_duplicates.
  destruct (is_empty _); reflexivity.
Qed.

(** The returned rows are the cleaned rows, with duplicates dropped unless
    the frame is empty. *)
Lemma normalize_values (df : DataFrame) :
  values (normalize df) =
  if is_empty df then map (map clean_cell) (values df)
  else dedup_from row_eqb [] (map (map clean_cell) (values df)).
Proof.
  rewrite normalize_steps. unfold drop_duplicates, is_empty. simpl.
  destruct (columns df), (values df); reflexivity.
Qed.

Lemma normalize_values_columns (df : DataFrame) :
  columns df <> [] ->
  values (normalize df) =
  dedup_from row_eqb [] (map (map clean_cell) (values df)).
Proof.
  intros Hcols. rewrite normalize_values. unfold is_empty.
  destruct (columns df); [contradiction|].
  destruct (values df); reflexivity.
Qed.

Lemma normalize_values_no_column (df : DataFrame) :
  columns df = [] ->
  values (normalize df) = map (map clean_cell) (values df).
Proof.
  intros Hcols. rewrite normalize_values. unfold is_empty.
  now rewrite Hcols.
Qed.

Lemma normalize_In (df : DataFrame) (r' : row) :
  In r' (values (normalize df)) <->
  exists r, In r (values df) /\ r' = map clean_cell r.
Proof.
  rewrite normalize_values.
  destruct (is_empty df).
  - rewrite in_map_iff. split.
    + intros (r & <- & Hr). now exists r.
    + intros (r & Hr & ->). now exists r.
  - rewrite (dedup_In row_eqb row_eqb_eq), in_map_iff.
    simpl. split.
    + intros [(r & <- & Hr) _]. now exists r.
    + intros (r & Hr & ->). split; [now exists r | tauto].
Qed.

Lemma normalize_NoDup (df : DataFrame) :
  columns df <> [] -> NoDup (values (normalize df)).
Proof.
  intros Hcols. rewrite normalize_values_columns by exact Hcols.
  apply dedup_NoDup. exact row_eqb_eq.
Qed.

Lemma clean_cell_scalar (c : cell) : scalar (clean_cell c).
Proof.
  destruct c as [|s|n|xs]; simpl; try exact I.
  destruct (String.eqb s Py.TAB); [exact I|].
  destruct (String.eqb s Py.NL); exact I.
Qed.

(** *** Deleting a column *)

Lemma delitem_columns (df df' : DataFrame) (name : string) :
  delitem df name = Some df' ->
  columns df' = filter (fun c => negb (String.eqb c name)) (columns df).
Proof.
  unfold delitem. destruct (mem name (columns df)); [|discriminate].
  intros [= <-]. reflexivity.
Qed.

Lemma delitem_gone (df df' : DataFrame) (name : string) :
  delitem df name = Some df' -> ~ In name (columns df').
Proof.
  intros H Hin. rewrite (delitem_columns _ _ _ H) in Hin.
  apply filter_In in Hin. destruct Hin as [_ Hne].
  rewrite String.eqb_refl in Hne. discriminate.
Qed.

Lemma delitem_values (df df' : DataFrame) (name : string) :
  delitem df name = Some df' ->
  values df' = map (drop_col name (columns df)) (values df).
Proof.
  unfold delitem. destruct (mem name (columns df)); [|discriminate].
  intros [= <-]. reflexivity.
Qed.

Lemma clean_up_frame (acc df : DataFrame) :
  clean_up acc = Return (PyFrame df) ->
  exists raw, delitem acc "Rank" = Some raw /\ df = normalize raw.
Proof.
  unfold clean_up. destruct (delitem acc "Rank") as [raw|]; [|discriminate].
  intros [= <-]. now exists raw.
Qed.

End PandasFacts.

(** ** Joining and splitting *)

Module PyFacts.
Import Py.

Lemma split_no_sep (sep : ascii) (s : string) :
  contains sep s = false -> split sep s = [s].
Proof.
  induction s as [|a s IH]; simpl; [reflexivity|].
  intros H. apply orb_false_iff in H. destruct H as [Ha Hs].
  rewrite Ha, (IH Hs). reflexivity.
Qed.

Lemma split_append (sep : ascii) (x rest : string) :
  contains sep x = false ->
  split sep (x ++ String sep rest) = x :: split sep rest.
Proof.
  induction x as [|a x IH]; simpl.
  - intros _. rewrite Ascii.eqb_refl. reflexivity.
  - intros H. apply orb_false_iff in H. destruct H as [Ha Hx].
    rewrite Ha, (IH Hx). reflexivity.
Qed.

(** Splitting a tab-joined list gives the list back when it is not empty and
    none of its items holds a tab. *)
Lemma split_join (xs : list string) :
  xs <> [] ->
  Forall (fun x => contains tab x = false) xs ->
  split tab (join TAB xs) = xs.
Proof.
  induction xs as [|x xs IH]; intros Hne Hall; [contradiction|].
  inversion Hall as [|? ? Hx Hxs]; subst.
  destruct xs as [|y xs].
  - simpl. now apply split_no_sep.
  - change (join TAB (x :: y :: xs))
      with (x ++ String tab (join TAB (y :: xs))).
    rewrite split_append by exact Hx.
    f_equal. apply IH; [discriminate | exact Hxs].
Qed.

End PyFacts.

(** ** The returned table *)

Module ReturnFacts.
Import RunFacts PandasFacts.

Section Returned.
Variable query : string.
Variable return_fields : list string.
Variable n_lim : option Z.
Variable study_url : string.
Variable search_field : option string.
Variable srv : transport.

Local Abbreviation call :=
  (query_ctgov_api query return_fields n_lim study_url search_field).
Local Abbreviation accumulated :=
  (accumulated query return_fields n_lim study_url search_field srv).

(** A table comes back only from the clean-up of the accumulated table. *)
Lemma returned_frame (df : DataFrame) (log : list request) :
  run call srv = (Return (PyFrame df), log) ->
  exists raw, delitem accumulated "Rank" = Some raw /\ df = normalize raw.
Proof.
  intros Hrun.
  destruct (run_cases query return_fields n_lim study_url search_field srv)
    as [[_ H] | [(_ & _ & H) | [(_ & _ & _ & H) | (_ & _ & _ & H)]]];
    rewrite H in Hrun; try discriminate.
  injection Hrun as Hclean _. now apply clean_up_frame.
Qed.

End Returned.
End ReturnFacts.

Module TidyFacts.
Import Py Pages.

Lemma whole_tab_has_a_tab (s : string) :
  contains tab s = false -> String.eqb s TAB = false.
Proof.
  intros H. destruct (String.eqb s TAB) eqn:E; [|reflexivity].
  apply String.eqb_eq in E. subst s. discriminate H.
Qed.

Lemma whole_newline_has_a_newline (s : string) :
  contains newline s = false -> String.eqb s NL = false.
Proof.
  intros H. destruct (String.eqb s NL) eqn:E; [|reflexivity].
  apply String.eqb_eq in E. subst s. discriminate H.
Qed.

(** The clean-up does to every cell what it is there to do. *)
Lemma clean_cell_tidy (c : cell) : tidy c (clean_cell c).
Proof.
  destruct c as [|s|n|xs]; simpl; try reflexivity.
  intros Htab Hnl.
  now rewrite (whole_tab_has_a_tab s Htab), (whole_newline_has_a_newline s Hnl).
Qed.

Lemma clean_row_tidy (r : row) : Forall2 tidy r (map clean_cell r).
Proof.
  induction r as [|c r IH]; simpl; constructor;
    [apply clean_cell_tidy | exact IH].
Qed.

End TidyFacts.

(** ** Post-processing *)

(** C8: a returned table has no column named [Rank]. *)
Theorem C8_no_rank_column :
  forall query return_fields n_lim study_url search_field srv df log,
    run (query_ctgov_api query return_fields n_lim study_url search_field) srv
    = (Return (PyFrame df), log) ->
    ~ In "Rank" (columns df).
Proof.
  intros query return_fields n_lim study_url search_field srv df log Hrun.
  destruct (ReturnFacts.returned_frame _ _ _ _ _ _ _ _ Hrun)
    as (raw & Hdel & ->).
  rewrite PandasFacts.normalize_columns.
  exact (PandasFacts.delitem_gone _ _ _ Hdel).
Qed.

Lemma C8_no_rank_column_witness :
  let srv := registry ["NCTId"; "Condition"]
                      [[PyList ["NCT1"]; PyList ["Asthma"; "COPD"]]] in
  let df := mkFrame ["NCTId"; "Condition"]
                    [[Str "NCT1"; Str ("Asthma" ++ Py.TAB ++ "COPD")]] in
  fst (run (query_ctgov_api "asthma" ["NCTId"; "Condition"] None ctgov None)
           srv) = Return (PyFrame df) /\
  ~ In "Rank" (columns df).
Proof.
  intros srv df. split; [reflexivity|].
  apply (C8_no_rank_column "asthma" ["NCTId"; "Condition"] None ctgov None srv
           df [params "asthma" ["NCTId"; "Condition"] ctgov None 1 1000]).
  reflexivity.
Defined.

(** C7 as stated fails: a study with two conditions comes back as one cell
    that holds a tab, the separator the two items are joined with. *)
Lemma C7_counterexample :
  fst (run (query_ctgov_api "asthma" ["Condition"] None ctgov None)
           (registry ["Condition"] [[PyList ["Asthma"; "COPD"]]]))
  = Return (PyFrame (mkFrame ["Condition"]
                             [[Str ("Asthma" ++ Py.TAB ++ "COPD")]])) /\
  Py.contains Py.tab ("Asthma" ++ Py.TAB ++ "COPD") = true.
Proof. split; reflexivity. Qed.

(** C7 (amended): every cell of a returned table is a string or a number,
    never the missing marker and never a list.  Row by row and cell by cell
    the returned table is the accumulated table (without [Rank]) tidied: a
    missing value has become the empty string, a list its items joined with
    tabs (so the cell of a list of several items holds the separating
    tabs), a number and a string without tab or newline are unchanged.
    What becomes of a tab or a newline inside a string is left open. *)
Theorem C7_cells_are_cleaned :
  forall query return_fields n_lim study_url search_field srv df log,
    run (query_ctgov_api query return_fields n_lim study_url search_field) srv
    = (Return (PyFrame df), log) ->
    (forall r c, In r (values df) -> In c r -> scalar c)
    /\ exists raw,
         delitem (accumulated query return_fields n_lim study_url search_field
                              srv) "Rank" = Some raw
         /\ (forall r, In r (values raw) ->
                       exists r', In r' (values df) /\ Forall2 Pages.tidy r r')
         /\ (forall r', In r' (values df) ->
                        exists r, In r (values raw) /\ Forall2 Pages.tidy r r').
Proof.
  intros query return_fields n_lim study_url search_field srv df log Hrun.
  destruct (ReturnFacts.returned_frame _ _ _ _ _ _ _ _ Hrun)
    as (raw & Hdel & ->).
  split.
  - intros r' c Hr' Hc. apply PandasFacts.normalize_In in Hr'.
    destruct Hr' as (r & _ & ->). apply in_map_iff in Hc.
    destruct Hc as (c0 & <- & _). apply PandasFacts.clean_cell_scalar.
  - exists raw. split; [exact Hdel|]. split.
    + intros r Hr. exists (map clean_cell r).
      split; [apply PandasFacts.normalize_In; now exists r|].
      apply TidyFacts.clean_row_tidy.
    + intros r' Hr'. apply PandasFacts.normalize_In in Hr'.
      destruct Hr' as (r & Hr & ->). exists r.
      split; [exact Hr | apply TidyFacts.clean_row_tidy].
Qed.

Lemma C7_cells_are_cleaned_witness :
  let srv := registry ["Condition"] [[NaN]; [Str "Asthma"]; [PyList ["Flu"; "COPD"]]] in
  let df := mkFrame ["Condition"]
                    [[Str ""]; [Str "Asthma"]; [Str ("Flu" ++ Py.TAB ++ "COPD")]] in
  fst (run (query_ctgov_api "asthma" ["Condition"] None ctgov None) srv)
  = Return (PyFrame df) /\
  forall r c, In r (values df) -> In c r -> scalar c.
Proof.
  intros srv df. split; [reflexivity|].
  destruct (C7_cells_are_cleaned "asthma" ["Condition"] None ctgov None srv
              df [params "asthma" ["Condition"] ctgov None 1 1000])
    as [Hscalar _]; [reflexivity | exact Hscalar].
Defined.

(** The replacement of lines 93-94 reaches whole cells only: a string that
    holds a tab or a newline among other characters comes back with it. *)
Lemma tab_inside_a_string_is_kept :
  fst (run (query_ctgov_api "asthma" ["Title"] None ctgov None)
           (registry ["Title"]
                     [[Str ("Asthma" ++ Py.TAB ++ "in" ++ Py.NL ++ "adults")]]))
  = Return (PyFrame
              (mkFrame ["Title"]
                       [[Str ("Asthma" ++ Py.TAB ++ "in" ++ Py.NL ++ "adults")]])).
Proof. reflexivity. Qed.

(** C5 as stated fails: a study whose field holds the empty list comes back
    with an empty string in that cell, and splitting the empty string on tab
    gives one piece, not zero. *)
Lemma C5_counterexample :
  fst (run (query_ctgov_api "asthma" ["Condition"] None ctgov None)
           (registry ["Condition"] [[PyList []]]))
  = Return (PyFrame (mkFrame ["Condition"] [[Str ""]])) /\
  List.length (Py.split Py.tab "") <> List.length (@nil string).
Proof. split; [reflexivity | discriminate]. Qed.

(** C5 (amended): a list-valued cell of the accumulated table comes back as
    that list joined with tabs, in the same position of the cleaned row; and
    splitting the joined string on tab gives the list back (so also its
    length) when the list is not empty and none of its items holds a tab. *)
Theorem C5_lists_are_tab_joined :
  forall query return_fields n_lim study_url search_field srv df log
         raw r i xs,
    run (query_ctgov_api query return_fields n_lim study_url search_field) srv
    = (Return (PyFrame df), log) ->
    delitem (accumulated query return_fields n_lim study_url search_field srv)
            "Rank" = Some raw ->
    In r (values raw) ->
    nth_error r i = Some (PyList xs) ->
    In (map clean_cell r) (values df)
    /\ nth_error (map clean_cell r) i = Some (Str (Py.join Py.TAB xs))
    /\ (xs <> [] ->
        Forall (fun x => Py.contains Py.tab x = false) xs ->
        Py.split Py.tab (Py.join Py.TAB xs) = xs).
Proof.
  intros query return_fields n_lim study_url search_field srv df log
         raw r i xs Hrun Hdel Hr Hcell.
  destruct (ReturnFacts.returned_frame _ _ _ _ _ _ _ _ Hrun)
    as (raw' & Hdel' & ->).
  rewrite Hdel in Hdel'. injection Hdel' as <-.
  split; [apply PandasFacts.normalize_In; now exists r|].
  split; [|apply PyFacts.split_join].
  rewrite nth_error_map, Hcell. reflexivity.
Qed.

Lemma C5_lists_are_tab_joined_witness :
  let srv := registry ["Condition"] [[PyList ["Asthma"; "COPD"]]] in
  let df := mkFrame ["Condition"] [[Str ("Asthma" ++ Py.TAB ++ "COPD")]] in
  In [Str ("Asthma" ++ Py.TAB ++ "COPD")] (values df)
  /\ Py.split Py.tab (Py.join Py.TAB ["Asthma"; "COPD"]) = ["Asthma"; "COPD"].
Proof.
  intros srv df.
  destruct (C5_lists_are_tab_joined "asthma" ["Condition"] None ctgov None srv
              df [params "asthma" ["Condition"] ctgov None 1 1000]
              (mkFrame ["Condition"] [[PyList ["Asthma"; "COPD"]]])
              [PyList ["Asthma"; "COPD"]] 0%nat ["Asthma"; "COPD"])
    as (Hin & _ & Hsplit).
  - reflexivity.
  - reflexivity.
  - now left.
  - reflexivity.
  - split; [exact Hin|].
    apply Hsplit; [discriminate | repeat constructor].
Defined.

(** ** Later pages that come back empty *)

Module AccumulateFacts.
Import PandasFacts.

Lemma add_keys_keeps (k : string) (ks cols : list string) :
  In k cols -> In k (add_keys cols ks).
Proof.
  unfold add_keys. revert cols.
  induction ks as [|x ks IH]; intros cols Hin; simpl; [exact Hin|].
  apply IH. destruct (mem x cols); [exact Hin|].
  apply in_or_app. now left.
Qed.

Lemma concat_keeps_column (k : string) (df1 df2 : DataFrame) :
  In k (columns df1) -> In k (columns (concat df1 df2)).
Proof. intros H. simpl. now apply add_keys_keeps. Qed.

Section Accumulate.
Variable query : string.
Variable return_fields : list string.
Variable n_lim : option Z.
Variable study_url : string.
Variable search_field : option string.
Variable srv : transport.

Local Abbreviation request_of :=
  (request_of query return_fields study_url search_field).
Local Abbreviation append_page :=
  (append_page query return_fields study_url search_field srv).

(** Folding [append_page] is concatenating the pages that report at least
    one study returned; the others leave the table as it is. *)
Lemma fold_append_page (ws : list (Z * Z)) (df : DataFrame) :
  fold_left append_page ws df =
  fold_left concat
            (map (fun info => of_records (StudyFields info))
                 (filter (fun info => NStudiesReturned info >? 0)
                         (map srv (map request_of ws))))
            df.
Proof.
  revert df. induction ws as [|w ws IH]; intros df; simpl; [reflexivity|].
  rewrite IH. unfold DHTermSearch.append_page.
  destruct (NStudiesReturned (srv (request_of w)) >? 0); reflexivity.
Qed.

Lemma fold_append_keeps_column (k : string) (ws : list (Z * Z))
      (df : DataFrame) :
  In k (columns df) -> In k (columns (fold_left append_page ws df)).
Proof.
  revert df. induction ws as [|w ws IH]; intros df Hin; simpl; [exact Hin|].
  apply IH. unfold DHTermSearch.append_page.
  destruct (NStudiesReturned (srv (request_of w)) >? 0);
    [now apply concat_keeps_column | exact Hin].
Qed.

End Accumulate.
End AccumulateFacts.

(** ** Fetching from the registry fixture *)

Module RanksFacts.

Lemma In_ranks (a b x : Z) : In x (ranks a b) <-> a <= x <= b.
Proof.
  unfold ranks. rewrite in_map_iff. split.
  - intros (k & <- & Hk). apply in_seq in Hk. lia.
  - intros Hx. exists (Z.to_nat (x - a)). split; [lia|].
    apply in_seq. lia.
Qed.

Lemma ranks_nil (a b : Z) : b < a -> ranks a b = [].
Proof.
  intros H. unfold ranks.
  replace (Z.to_nat (b - a + 1)) with 0%nat by lia. reflexivity.
Qed.

Lemma ranks_cons (a b : Z) : a <= b -> ranks a b = a :: ranks (a + 1) b.
Proof.
  intros H. unfold ranks.
  replace (Z.to_nat (b - a + 1)) with (S (Z.to_nat (b - (a + 1) + 1))) by lia.
  simpl. f_equal; [lia|].
  rewrite <- seq_shift, map_map. apply map_ext. intros k. lia.
Qed.

Lemma ranks_length (a b : Z) : List.length (ranks a b) = Z.to_nat (b - a + 1).
Proof. unfold ranks. now rewrite length_map, length_seq. Qed.

Lemma ranks_app (a m b : Z) :
  a <= m + 1 -> m <= b -> (ranks a m ++ ranks (m + 1) b)%list = ranks a b.
Proof.
  intros Ham Hmb.
  remember (Z.to_nat (m + 1 - a)) as n eqn:Hn.
  revert a Ham Hn. induction n as [|n IH]; intros a Ham Hn.
  - replace a with (m + 1) by lia. rewrite ranks_nil by lia. reflexivity.
  - rewrite (ranks_cons a m) by lia. rewrite (ranks_cons a b) by lia.
    simpl. f_equal. apply IH; lia.
Qed.

Lemma NoDup_ranks (a b : Z) : NoDup (ranks a b).
Proof.
  remember (Z.to_nat (b - a + 1)) as n eqn:Hn.
  revert a Hn. induction n as [|n IH]; intros a Hn.
  - rewrite ranks_nil by lia. constructor.
  - rewrite ranks_cons by lia. constructor; [|apply IH; lia].
    rewrite In_ranks. lia.
Qed.

Lemma nth_seq_all {A : Type} (l : list A) (d : A) :
  map (fun k => nth k l d) (seq 0 (List.length l)) = l.
Proof.
  induction l as [|x l IH]; simpl; [reflexivity|].
  f_equal. rewrite <- seq_shift, map_map. exact IH.
Qed.

End RanksFacts.

Module FrameFacts.
Import PandasFacts.

Lemma fst_combine {A B : Type} (ks : list A) (r : list B) :
  List.length r = List.length ks -> map fst (combine ks r) = ks.
Proof.
  revert r. induction ks as [|k ks IH]; intros [|c r] H; simpl in *;
    try reflexivity; try discriminate.
  f_equal. apply IH. lia.
Qed.

Lemma lookup_head (k : string) (c : cell) (d : study) :
  lookup k ((k, c) :: d) = c.
Proof. unfold lookup. simpl. now rewrite String.eqb_refl. Qed.

Lemma lookup_tail (k k' : string) (c : cell) (d : study) :
  k <> k' -> lookup k ((k', c) :: d) = lookup k d.
Proof.
  intros Hne. unfold lookup. simpl.
  destruct (String.eqb k k') eqn:E; [apply String.eqb_eq in E; contradiction|].
  reflexivity.
Qed.

(** Reading a row back through its own labels gives the row. *)
Lemma lookup_combine (ks : list string) (r : row) :
  NoDup ks -> List.length r = List.length ks ->
  map (fun k => lookup k (combine ks r)) ks = r.
Proof.
  revert r. induction ks as [|k ks IH]; intros [|c r] Hnd Hlen; simpl in *;
    try reflexivity; try discriminate.
  inversion Hnd as [|? ? Hk Hnd']; subst.
  rewrite lookup_head. f_equal.
  transitivity (map (fun k' => lookup k' (combine ks r)) ks);
    [|apply IH; [exact Hnd' | lia]].
  apply map_ext_in. intros k' Hk'. apply lookup_tail.
  intros ->. contradiction.
Qed.

Lemma add_keys_known (ks cols : list string) :
  (forall k, In k ks -> In k cols) -> add_keys cols ks = cols.
Proof.
  unfold add_keys. induction ks as [|k ks IH]; intros Hsub; simpl;
    [reflexivity|].
  assert (E : mem k cols = true) by (apply mem_In, Hsub; now left).
  rewrite E. apply IH. intros k' Hk'. apply Hsub. now right.
Qed.

Lemma add_keys_new (ks cols : list string) :
  NoDup (cols ++ ks) -> add_keys cols ks = (cols ++ ks)%list.
Proof.
  unfold add_keys. revert cols.
  induction ks as [|k ks IH]; intros cols Hnd; simpl;
    [now rewrite app_nil_r|].
  assert (E : mem k cols = false).
  { destruct (mem k cols) eqn:E; [|reflexivity].
    apply mem_In in E. apply NoDup_remove_2 in Hnd.
    exfalso. apply Hnd. apply in_or_app. now left. }
  rewrite E.
  replace (cols ++ k :: ks)%list with ((cols ++ [k]) ++ ks)%list
    by (rewrite <- app_assoc; reflexivity).
  apply IH. rewrite <- app_assoc. exact Hnd.
Qed.

(** A page whose records all carry the keys [cols]. *)
Lemma of_records_uniform (cols : list string) (recs : list study) :
  NoDup cols -> recs <> [] ->
  (forall r, In r recs -> map fst r = cols) ->
  of_records recs =
  mkFrame cols (map (fun r => map (fun c => lookup c r) cols) recs).
Proof.
  intros Hnd Hne Hkeys. unfold of_records.
  assert (E : fold_left (fun acc r => add_keys acc (map fst r)) recs [] = cols).
  { destruct recs as [|r0 recs]; [contradiction|]. simpl.
    rewrite (Hkeys r0) by now left.
    rewrite (add_keys_new cols []) by exact Hnd. simpl.
    assert (Hrest : forall r, In r recs -> map fst r = cols)
      by (intros r Hr; apply Hkeys; now right).
    clear Hkeys Hne. induction recs as [|r recs IH]; simpl; [reflexivity|].
    rewrite (Hrest r) by now left.
    rewrite add_keys_known by auto.
    apply IH. intros r' Hr'. apply Hrest. now right. }
  rewrite E. reflexivity.
Qed.

(** Concatenating two tables on the same labels appends the rows. *)
Lemma concat_same (cols : list string) (rows1 rows2 : list row) :
  NoDup cols ->
  Forall (fun r => List.length r = List.length cols) rows1 ->
  Forall (fun r => List.length r = List.length cols) rows2 ->
  concat (mkFrame cols rows1) (mkFrame cols rows2)
  = mkFrame cols (rows1 ++ rows2)%list.
Proof.
  intros Hnd H1 H2. unfold concat, reindex. simpl.
  rewrite add_keys_known by auto.
  f_equal. f_equal.
  - rewrite <- (map_id rows1) at 2. apply map_ext_in. intros r Hr.
    rewrite Forall_forall in H1. now apply lookup_combine, H1.
  - rewrite <- (map_id rows2) at 2. apply map_ext_in. intros r Hr.
    rewrite Forall_forall in H2. now apply lookup_combine, H2.
Qed.

Lemma snd_keep_others (name : string) (ks : list string) (r : row) :
  ~ In name ks -> List.length r = List.length ks ->
  map snd (filter (fun kv => negb (String.eqb (fst kv) name)) (combine ks r))
  = r.
Proof.
  revert r. induction ks as [|k ks IH]; intros [|c r] Hout Hlen; simpl in *;
    try reflexivity; try discriminate.
  destruct (String.eqb k name) eqn:E;
    [apply String.eqb_eq in E; exfalso; apply Hout; now left|].
  simpl. f_equal. apply IH; [|lia]. intros H. apply Hout. now right.
Qed.

Lemma filter_others (name : string) (ks : list string) :
  ~ In name ks -> filter (fun c => negb (String.eqb c name)) ks = ks.
Proof.
  induction ks as [|k ks IH]; intros Hout; simpl; [reflexivity|].
  destruct (String.eqb k name) eqn:E;
    [apply String.eqb_eq in E; exfalso; apply Hout; now left|].
  simpl. f_equal. apply IH. intros H. apply Hout. now right.
Qed.

End FrameFacts.

Module RegistryFacts.
Import LoopFacts RunFacts PandasFacts RanksFacts FrameFacts.


(** Every later window lies inside [1, n_total] and is not empty. *)
Lemma page_windows_valid :
  forall fuel n_total curr_min curr_max,
    curr_max = curr_min + 999 -> 1 <= curr_max ->
    Forall (fun w => 1 <= fst w /\ fst w <= snd w /\ snd w <= n_total)
           (page_windows fuel n_total curr_min curr_max).
Proof.
  induction fuel as [|fuel IH]; intros n a b Hinv Hb; simpl.
  - destruct (n >? b); constructor.
  - destruct (n >? b) eqn:E; [|constructor].
    apply Z.gtb_lt in E. constructor; [simpl; lia|].
    destruct (Z_lt_le_dec (b + 999) n) as [Hfar | Hnear].
    + apply IH; lia.
    + rewrite page_windows_nil by lia. constructor.
Qed.

(** With the ranks up to [curr_max] already seen, the later windows bring
    exactly the ranks above [curr_max], each once. *)
Lemma dedup_later_ranks :
  forall fuel n_total curr_min curr_max seen,
    (loop_fuel n_total curr_max <= fuel)%nat ->
    curr_max = curr_min + 999 ->
    (forall x, In x seen <-> 1 <= x <= curr_max) ->
    1 <= curr_max ->
    dedup_from Z.eqb seen
      (flat_map (fun w : Z * Z => ranks (fst w) (snd w))
                (page_windows fuel n_total curr_min curr_max))
    = ranks (curr_max + 1) n_total.
Proof.
  unfold loop_fuel.
  induction fuel as [|fuel IH]; intros n a b seen Hfuel Hinv Hseen Hb; simpl.
  - destruct (n >? b) eqn:E; [apply Z.gtb_lt in E; lia|].
    rewrite Z.gtb_ltb in E. apply Z.ltb_ge in E.
    simpl. now rewrite ranks_nil by lia.
  - destruct (n >? b) eqn:E.
    2:{ rewrite Z.gtb_ltb in E. apply Z.ltb_ge in E.
        simpl. now rewrite ranks_nil by lia. }
    apply Z.gtb_lt in E. simpl.
    replace (a + 999) with b by lia.
    set (b' := Z.min n (b + 999)).
    rewrite (dedup_app Z.eqb Z.eqb_eq).
    assert (Hfirst : dedup_from Z.eqb seen (ranks b b') = ranks (b + 1) b').
    { rewrite (ranks_cons b b') by (unfold b'; lia). simpl.
      assert (Eb : existsb (Z.eqb b) seen = true)
        by (apply (seen_In Z.eqb Z.eqb_eq), Hseen; lia).
      rewrite Eb. apply (dedup_fresh Z.eqb Z.eqb_eq); [apply NoDup_ranks|].
      intros x Hx Hs. apply In_ranks in Hx. apply Hseen in Hs. lia. }
    rewrite Hfirst.
    destruct (Z_lt_le_dec (b + 999) n) as [Hfar | Hnear].
    + rewrite (IH n b b' (ranks b b' ++ seen)%list).
      * apply ranks_app; unfold b'; lia.
      * unfold b'. lia.
      * unfold b'. lia.
      * intros x. rewrite in_app_iff, In_ranks, Hseen. unfold b'. lia.
      * unfold b'. lia.
    + rewrite page_windows_nil by (unfold b'; lia). simpl.
      rewrite app_nil_r. unfold b'. now rewrite Z.min_l by lia.
Qed.

(** Rows without cells are all alike. *)
Lemma no_cell_rows_alike (rows : list row) :
  Forall (fun r => List.length r = 0%nat) rows ->
  NoDup (map (map clean_cell) rows) -> (List.length rows <= 1)%nat.
Proof.
  intros Hrows Hnd.
  destruct rows as [|r1 [|r2 rows]]; simpl; try lia.
  exfalso.
  inversion Hrows as [|? ? H1 Hrows']; subst.
  inversion Hrows' as [|? ? H2 _]; subst.
  apply length_zero_iff_nil in H1, H2. subst r1 r2.
  inversion Hnd as [|? ? Hin _]; subst. apply Hin. now left.
Qed.

Section Served.
Variable flds : list string.
Variable db : list row.

Hypothesis flds_NoDup : NoDup flds.
Hypothesis flds_no_rank : ~ In "Rank" flds.
Hypothesis db_rows : Forall (fun r => List.length r = List.length flds) db.

Local Abbreviation N := (Z.of_nat (List.length db)).
Local Abbreviation cols := ("Rank" :: flds).

(** The study of rank [i] as a row of the page table, and without its rank. *)
Local Abbreviation entry := (fun i : Z => nth (Z.to_nat (i - 1)) db []).
Local Abbreviation ranked := (fun i : Z => Int i :: entry i).

Lemma cols_NoDup : NoDup cols.
Proof. constructor; assumption. Qed.

Lemma entry_length (i : Z) :
  1 <= i <= N -> List.length (entry i) = List.length flds.
Proof.
  intros Hi. rewrite Forall_forall in db_rows. apply db_rows.
  apply nth_In. lia.
Qed.

Lemma study_at_keys (i : Z) :
  1 <= i <= N -> map fst (study_at flds db i) = cols.
Proof.
  intros Hi. unfold study_at. simpl. f_equal.
  apply fst_combine. now apply entry_length.
Qed.

Lemma study_at_row (i : Z) :
  1 <= i <= N ->
  map (fun c => lookup c (study_at flds db i)) cols = ranked i.
Proof.
  intros Hi. unfold study_at. simpl. rewrite lookup_head. f_equal.
  transitivity (map (fun c => lookup c (combine flds (entry i))) flds).
  - apply map_ext_in. intros c Hc. apply lookup_tail.
    intros ->. contradiction.
  - apply lookup_combine; [exact flds_NoDup | now apply entry_length].
Qed.

(** What the registry answers to a window inside [1, N]. *)
Lemma registry_page (p : request) :
  1 <= min_rnk p -> min_rnk p <= max_rnk p -> max_rnk p <= N ->
  0 < NStudiesReturned (registry flds db p) /\
  of_records (StudyFields (registry flds db p))
  = mkFrame cols (map ranked (ranks (min_rnk p) (max_rnk p))).
Proof.
  intros Hlo Hle Hhi. unfold registry.
  rewrite Z.max_r by lia. rewrite Z.min_r by lia. simpl.
  split.
  - rewrite length_map, ranks_length. lia.
  - rewrite (of_records_uniform cols).
    + f_equal. rewrite map_map. apply map_ext_in. intros i Hi.
      apply In_ranks in Hi. apply study_at_row. lia.
    + exact cols_NoDup.
    + rewrite (ranks_cons (min_rnk p) (max_rnk p)) by lia. discriminate.
    + intros r Hr. apply in_map_iff in Hr. destruct Hr as (i & <- & Hi).
      apply In_ranks in Hi. apply study_at_keys. lia.
Qed.

Lemma ranked_length (l : list Z) :
  Forall (fun i => 1 <= i <= N) l ->
  Forall (fun r => List.length r = List.length cols) (map ranked l).
Proof.
  intros H. apply Forall_map. eapply Forall_impl; [|exact H].
  intros i Hi. simpl. f_equal. now apply entry_length.
Qed.

Lemma ranks_in_range (a b : Z) :
  1 <= a -> b <= N -> Forall (fun i => 1 <= i <= N) (ranks a b).
Proof.
  intros Ha Hb. apply Forall_forall. intros i Hi. apply In_ranks in Hi. lia.
Qed.

(** *** Accumulating the pages *)

Variable query : string.
Variable return_fields : list string.
Variable study_url : string.
Variable search_field : option string.

Local Abbreviation request_of :=
  (request_of query return_fields study_url search_field).
Local Abbreviation append_page :=
  (append_page query return_fields study_url search_field (registry flds db)).

(** All ranks requested by the windows [ws], in order. *)
Local Abbreviation ranks_of :=
  (flat_map (fun w : Z * Z => ranks (fst w) (snd w))).

Lemma fold_registry (ws : list (Z * Z)) :
  Forall (fun w => 1 <= fst w /\ fst w <= snd w /\ snd w <= N) ws ->
  forall l,
    Forall (fun i => 1 <= i <= N) l ->
    fold_left append_page ws (mkFrame cols (map ranked l))
    = mkFrame cols (map ranked (l ++ ranks_of ws)).
Proof.
  induction 1 as [|w ws (Hlo & Hle & Hhi) _ IH]; intros l Hl; simpl.
  - now rewrite app_nil_r.
  - destruct (registry_page (request_of w)) as [Hpos Hpage];
      [exact Hlo | exact Hle | exact Hhi |].
    unfold DHTermSearch.append_page at 2.
    apply Z.gtb_lt in Hpos. rewrite Hpos, Hpage.
    change (min_rnk (request_of w)) with (fst w).
    change (max_rnk (request_of w)) with (snd w).
    rewrite concat_same;
      [| exact cols_NoDup | now apply ranked_length
       | apply ranked_length; now apply ranks_in_range].
    rewrite <- map_app, app_assoc. apply IH.
    apply Forall_app. split; [exact Hl | now apply ranks_in_range].
Qed.


(** *** The whole call *)

Variable n_lim : option Z.

Hypothesis many : 1000 < N.
Hypothesis limit_above : forall lim, n_lim = Some lim -> N <= lim.
Hypothesis cleaned_NoDup : NoDup (map (map clean_cell) db).

Local Abbreviation srv := (registry flds db).
Local Abbreviation later :=
  (later_windows query return_fields n_lim study_url search_field srv).

Lemma registry_total :
  clipped_total query return_fields n_lim study_url search_field srv = N.
Proof.
  unfold clipped_total. simpl. destruct n_lim as [lim|]; [|reflexivity].
  specialize (limit_above lim eq_refl). lia.
Qed.

Lemma later_valid :
  Forall (fun w => 1 <= fst w /\ fst w <= snd w /\ snd w <= N) later.
Proof.
  unfold later_windows. rewrite registry_total.
  apply page_windows_valid; lia.
Qed.

Lemma accumulated_registry :
  accumulated query return_fields n_lim study_url search_field srv
  = mkFrame cols (map ranked (ranks 1 1000 ++ ranks_of later)).
Proof.
  unfold accumulated.
  destruct (registry_page
              (params query return_fields study_url search_field 1 1000))
    as [_ Hpage]; [simpl; lia | simpl; lia | simpl; lia |].
  rewrite Hpage. cbn [min_rnk max_rnk params].
  apply fold_registry; [exact later_valid | apply ranks_in_range; lia].
Qed.

Lemma requested_in_range :
  Forall (fun i => 1 <= i <= N) (ranks 1 1000 ++ ranks_of later).
Proof.
  apply Forall_app. split; [apply ranks_in_range; lia|].
  apply Forall_forall. intros i Hi. apply in_flat_map in Hi.
  destruct Hi as (w & Hw & Hi). apply In_ranks in Hi.
  pose proof later_valid as Hv. rewrite Forall_forall in Hv.
  specialize (Hv w Hw). lia.
Qed.

(** Every rank of [1, N] is requested, the overlapping ones twice; dropping
    the repeats leaves each rank once, in order. *)
Lemma requested_dedup :
  dedup_from Z.eqb [] (ranks 1 1000 ++ ranks_of later) = ranks 1 N.
Proof.
  rewrite (dedup_app Z.eqb Z.eqb_eq).
  rewrite (dedup_fresh Z.eqb Z.eqb_eq) by (try apply NoDup_ranks; auto).
  unfold later_windows. rewrite registry_total.
  rewrite (dedup_later_ranks _ N 1 1000); try lia.
  - apply (ranks_app 1 1000 N); lia.
  - intros x. rewrite app_nil_r, In_ranks. tauto.
Qed.

Lemma drop_rank (i : Z) :
  1 <= i <= N -> drop_col "Rank" cols (ranked i) = entry i.
Proof.
  intros Hi. unfold drop_col. simpl.
  apply snd_keep_others; [exact flds_no_rank | now apply entry_length].
Qed.

Lemma cleaned_inj (i j : Z) :
  1 <= i <= N -> 1 <= j <= N ->
  map clean_cell (entry i) = map clean_cell (entry j) -> i = j.
Proof.
  intros Hi Hj E.
  pose proof (proj1 (NoDup_nth (map (map clean_cell) db) (map clean_cell []))
                    cleaned_NoDup (Z.to_nat (i - 1)) (Z.to_nat (j - 1))) as H.
  rewrite length_map in H. rewrite !map_nth in H.
  assert (Hij : Z.to_nat (i - 1) = Z.to_nat (j - 1))
    by (unfold row in *; apply H; [lia | lia | exact E]).
  lia.
Qed.

Lemma entries_all :
  map (fun i => map clean_cell (entry i)) (ranks 1 N) = map (map clean_cell) db.
Proof.
  unfold ranks. rewrite map_map.
  replace (Z.to_nat (N - 1 + 1)) with (List.length db) by lia.
  transitivity
    (map (map clean_cell)
         (map (fun k => nth k db []) (seq 0 (List.length db))));
    [|now rewrite nth_seq_all].
  rewrite map_map. apply map_ext. intros k. do 2 f_equal. lia.
Qed.

Lemma frame_eq (df : DataFrame) (labels : list string) (rows : list row) :
  columns df = labels -> values df = rows -> df = mkFrame labels rows.
Proof. destruct df; simpl; intros -> ->; reflexivity. Qed.

Lemma flds_needed : flds <> [].
Proof.
  intros E.
  assert (Hle : (List.length db <= 1)%nat).
  { apply no_cell_rows_alike; [|exact cleaned_NoDup].
    eapply Forall_impl; [|exact db_rows].
    intros r Hr. now rewrite Hr, E. }
  lia.
Qed.

(** On the fixture the call returns one cleaned row per study, in rank
    order. *)
Lemma run_registry :
  query <> "" -> (List.length return_fields <= 20)%nat ->
  fst (run (query_ctgov_api query return_fields n_lim study_url search_field)
           srv)
  = Return (PyFrame (mkFrame flds (map (map clean_cell) db))).
Proof.
  intros Hq Hlen.
  rewrite run_pages; [| exact Hq | exact Hlen |].
  2:{ destruct (registry_page
                  (params query return_fields study_url search_field 1 1000))
        as [Hpos _]; [simpl; lia | simpl; lia | simpl; lia | exact Hpos]. }
  cbn [fst]. rewrite accumulated_registry. unfold clean_up, delitem.
  cbn [columns values mem existsb String.eqb Ascii.eqb Bool.eqb orb filter negb].
  rewrite (filter_others "Rank" flds flds_no_rank).
  do 2 f_equal.
  apply frame_eq; [apply normalize_columns|].
  rewrite normalize_values_columns by exact flds_needed.
  cbn [values]. rewrite !map_map.
  transitivity
    (dedup_from row_eqb (map (fun i => map clean_cell (entry i)) [])
                (map (fun i => map clean_cell (entry i))
                     (ranks 1 1000 ++ ranks_of later))).
  - cbn [map]. f_equal. apply map_ext_in. intros i Hi.
    pose proof requested_in_range as Hr. rewrite Forall_forall in Hr.
    now rewrite drop_rank by (apply Hr; exact Hi).
  - etransitivity;
      [exact (dedup_map Z.eqb row_eqb
                (fun i => map clean_cell (entry i))
                (fun i => 1 <= i <= N) Z.eqb_eq row_eqb_eq cleaned_inj
                _ [] requested_in_range (Forall_nil _))|].
    rewrite requested_dedup. apply entries_all.
Qed.

End Served.
End RegistryFacts.

Lemma distinct_NoDup {A : Type} (eqb : A -> A -> bool) (l : list A) :
  (forall x y, eqb x y = true <-> x = y) ->
  distinct eqb l = true -> NoDup l.
Proof.
  intros Heqb. induction l as [|x l IH]; simpl; [constructor|].
  intros H. apply andb_true_iff in H. destruct H as [Hx Hl].
  constructor; [|now apply IH].
  apply negb_true_iff in Hx.
  now apply (PandasFacts.seen_not_In eqb Heqb).
Qed.

(** ** One row per study *)

(** C2 as stated fails: of 1001 studies that are pairwise different as
    delivered, two come to the same cleaned row (an empty list and a list
    holding the empty string both become the empty string), and the returned
    table has 1000 rows. *)
Lemma C2_counterexample :
  NoDup nearly_alike /\
  List.length nearly_alike = 1001%nat /\
  exists df,
    fst (run (query_ctgov_api "heart" ["Condition"] None ctgov None)
             (registry ["Condition"] nearly_alike))
    = Return (PyFrame df)
    /\ List.length (values df) = 1000%nat.
Proof.
  split; [apply (distinct_NoDup row_eqb _ PandasFacts.row_eqb_eq);
          vm_compute; reflexivity|].
  split; [vm_compute; reflexivity|].
  eexists. split; [vm_compute; reflexivity | vm_compute; reflexivity].
Qed.

(** C2 (amended): take a call with a non-empty query and at most 20
    requested fields, pairwise different and none of them [Rank], against a
    registry that holds N > 1000 studies with one cell for every requested
    field and serves every window of ranks, with no limit or a limit of at
    least N.  When the rows of the N studies are still pairwise different
    after the clean-up of their cells (missing to empty string, lists
    tab-joined), the returned table has the requested fields as columns and
    exactly the N cleaned rows, one per study in rank order, and no two of
    its rows are identical: the ranks requested twice at the window
    boundaries are dropped as duplicates.  (Integral cells are numbers that
    a float64 holds exactly.) *)
Theorem C2_one_row_per_study :
  forall query return_fields n_lim study_url search_field db,
    query <> "" ->
    (List.length return_fields <= 20)%nat ->
    NoDup return_fields ->
    ~ In "Rank" return_fields ->
    Forall (fun r => List.length r = List.length return_fields) db ->
    1000 < Z.of_nat (List.length db) ->
    (forall lim, n_lim = Some lim -> Z.of_nat (List.length db) <= lim) ->
    NoDup (map (map clean_cell) db) ->
    exists df,
      fst (run (query_ctgov_api query return_fields n_lim study_url
                                search_field)
               (registry return_fields db))
      = Return (PyFrame df)
      /\ columns df = return_fields
      /\ values df = map (map clean_cell) db
      /\ List.length (values df) = List.length db
      /\ NoDup (values df).
Proof.
  intros query return_fields n_lim study_url search_field db
         Hq Hlen Hnd Hrank Hrows Hmany Hlim Hclean.
  exists (mkFrame return_fields (map (map clean_cell) db)).
  split; [now apply RegistryFacts.run_registry|].
  simpl. split; [reflexivity|]. split; [reflexivity|].
  split; [apply length_map | exact Hclean].
Qed.

Lemma C2_one_row_per_study_witness :
  exists df,
    fst (run (query_ctgov_api "heart" ["NCTId"] None ctgov None)
             (registry ["NCTId"] (numbered 1001)))
    = Return (PyFrame df)
    /\ List.length (values df) = 1001%nat.
Proof.
  destruct (C2_one_row_per_study "heart" ["NCTId"] None ctgov None
              (numbered 1001))
    as (df & Hrun & _ & _ & Hrows & _).
  - discriminate.
  - simpl; lia.
  - constructor; [intros [] | constructor].
  - intros [H | []]; discriminate.
  - apply Forall_forall. intros r Hr. apply in_map_iff in Hr.
    destruct Hr as (k & <- & _). reflexivity.
  - vm_compute; reflexivity.
  - intros lim H; discriminate.
  - apply (distinct_NoDup row_eqb _ PandasFacts.row_eqb_eq).
    vm_compute; reflexivity.
  - exists df. split; [exact Hrun|].
    rewrite Hrows. vm_compute; reflexivity.
Defined.

(* ================================================================== *)
(** * Further properties of the fetcher *)

Module RequestFacts.
Import Pandas Requests DHTermSearch LoopFacts RunFacts.

(** The loop takes one turn per started stretch of 999 ranks above
    [curr_max]. *)
Lemma page_windows_length :
  forall fuel n_total curr_min curr_max,
    (loop_fuel n_total curr_max <= fuel)%nat ->
    List.length (page_windows fuel n_total curr_min curr_max)
    = Z.to_nat ((n_total - curr_max + 998) / 999).
Proof.
  unfold loop_fuel.
  induction fuel as [|fuel IH]; intros n a b Hfuel.
  - rewrite page_windows_nil by lia. simpl.
    assert ((n - b + 998) / 999 <= 0)
      by (apply Z.lt_succ_r, Z.div_lt_upper_bound; lia).
    lia.
  - simpl. destruct (n >? b) eqn:E.
    + apply Z.gtb_lt in E.
      destruct (Z_lt_le_dec (b + 999) n) as [Hfar | Hnear].
      * simpl. rewrite Z.min_r by lia. rewrite IH by lia.
        replace (n - b + 998) with (1 * 999 + (n - (b + 999) + 998)) by lia.
        rewrite Z.div_add_l by lia.
        assert (0 <= (n - (b + 999) + 998) / 999)
          by (apply Z.div_pos; lia).
        lia.
      * simpl. rewrite page_windows_nil by lia. simpl.
        replace ((n - b + 998) / 999) with 1; [reflexivity|].
        apply Z.div_unique with (r := n - b - 1); [left; lia | lia].
    + rewrite Z.gtb_ltb in E. apply Z.ltb_ge in E.
      assert ((n - b + 998) / 999 <= 0)
        by (apply Z.lt_succ_r, Z.div_lt_upper_bound; lia).
      simpl. lia.
Qed.

Section Requests.
Variable query : string.
Variable return_fields : list string.
Variable n_lim : option Z.
Variable study_url : string.
Variable search_field : option string.
Variable srv : transport.

Local Abbreviation call :=
  (query_ctgov_api query return_fields n_lim study_url search_field).
Local Abbreviation first_request :=
  (params query return_fields study_url search_field 1 1000).
Local Abbreviation request_of :=
  (request_of query return_fields study_url search_field).
Local Abbreviation later_windows :=
  (later_windows query return_fields n_lim study_url search_field srv).

(** Whatever the call does, its log is empty, the first request alone, or
    the first request followed by the later windows. *)
Lemma log_cases :
  snd (run call srv) = []
  \/ snd (run call srv) = [first_request]
  \/ snd (run call srv) = first_request :: map request_of later_windows.
Proof.
  destruct (run_cases query return_fields n_lim study_url search_field srv)
    as [[_ H] | [(_ & _ & H) | [(_ & _ & _ & H) | (_ & _ & _ & H)]]];
    rewrite H; simpl; auto.
Qed.

End Requests.
End RequestFacts.

(** X1: past the first page the call issues one request for the window
    [1, 1000] and one more for every started stretch of 999 ranks between
    rank 1000 and the total: 1 + max(0, floor((n_total - 2) / 999)) requests,
    so a single one when the total is 1000 or less. *)
Theorem request_count :
  forall query return_fields n_lim study_url search_field srv,
    query <> "" ->
    (List.length return_fields <= 20)%nat ->
    0 < NStudiesReturned
          (srv (params query return_fields study_url search_field 1 1000)) ->
    Z.of_nat
      (List.length
         (snd (run (query_ctgov_api query return_fields n_lim study_url
                                    search_field) srv)))
    = 1 + Z.max 0
            ((clipped_total query return_fields n_lim study_url search_field
                            srv - 2) / 999).
Proof.
  intros query return_fields n_lim study_url search_field srv Hq Hlen Hpos.
  rewrite WindowFacts.log_eq by assumption.
  simpl List.length. rewrite length_map.
  unfold later_windows. rewrite RequestFacts.page_windows_length by lia.
  replace (clipped_total query return_fields n_lim study_url search_field srv
           - 1000 + 998)
    with (clipped_total query return_fields n_lim study_url search_field srv
          - 2) by lia.
  lia.
Qed.

Lemma request_count_witness :
  Z.of_nat
    (List.length
       (snd (run (query_ctgov_api "heart" ["NCTId"] None ctgov None)
                 (registry ["NCTId"] (numbered 2500)))))
  = 3.
Proof.
  rewrite (request_count "heart" ["NCTId"] None ctgov None
             (registry ["NCTId"] (numbered 2500))).
  - vm_compute. reflexivity.
  - discriminate.
  - simpl; lia.
  - vm_compute; reflexivity.
Defined.

(** X2: every request of a call goes to the given URL with the same query,
    format, comma-joined field list and search field; only the rank window
    changes from one request to the next. *)
Theorem requests_share_the_query :
  forall query return_fields n_lim study_url search_field srv,
    Forall (fun p => url p = study_url
                     /\ expr p = query
                     /\ fmt p = "JSON"
                     /\ fields p = Py.join "," return_fields
                     /\ field p = search_field)
           (snd (run (query_ctgov_api query return_fields n_lim study_url
                                      search_field) srv)).
Proof.
  intros query return_fields n_lim study_url search_field srv.
  destruct (RequestFacts.log_cases query return_fields n_lim study_url
              search_field srv) as [H | [H | H]]; rewrite H.
  - constructor.
  - constructor; [repeat split | constructor].
  - constructor; [repeat split|].
    apply Forall_map, Forall_forall. intros w _. repeat split.
Qed.

Module ColumnFacts.
Import Pandas Requests DHTermSearch PandasFacts Pages.

Lemma In_add_keys (k : string) (ks cols : list string) :
  In k (add_keys cols ks) <-> In k cols \/ In k ks.
Proof.
  unfold add_keys. revert cols.
  induction ks as [|x ks IH]; intros cols; simpl; [tauto|].
  rewrite IH. destruct (mem x cols) eqn:E.
  - apply mem_In in E. split; [tauto|].
    intros [H | [<- | H]]; auto.
  - rewrite in_app_iff. simpl. tauto.
Qed.

Lemma NoDup_add_keys (ks cols : list string) :
  NoDup cols -> NoDup (add_keys cols ks).
Proof.
  unfold add_keys. revert cols.
  induction ks as [|x ks IH]; intros cols Hnd; simpl; [exact Hnd|].
  apply IH. destruct (mem x cols) eqn:E; [exact Hnd|].
  apply NoDup_app; [exact Hnd | repeat constructor; intros [] |].
  intros y Hy [<- | []].
  apply mem_In in Hy. congruence.
Qed.

Lemma fold_add_keys_In (k : string) (recs : list study) (cols : list string) :
  In k (fold_left (fun acc r => add_keys acc (map fst r)) recs cols)
  <-> In k cols \/ exists r, In r recs /\ In k (map fst r).
Proof.
  revert cols. induction recs as [|r recs IH]; intros cols; simpl.
  - split; [auto | intros [H | (r & [] & _)]; exact H].
  - rewrite IH, In_add_keys. split.
    + intros [[H | H] | (r' & Hr' & Hk)]; eauto.
    + intros [H | (r' & [<- | Hr'] & Hk)]; eauto.
Qed.

Lemma fold_add_keys_NoDup (recs : list study) (cols : list string) :
  NoDup cols ->
  NoDup (fold_left (fun acc r => add_keys acc (map fst r)) recs cols).
Proof.
  revert cols. induction recs as [|r recs IH]; intros cols Hnd; simpl;
    [exact Hnd|].
  apply IH. now apply NoDup_add_keys.
Qed.

(** The labels of a page are the keys its studies carry. *)
Lemma of_records_columns (k : string) (recs : list study) :
  In k (columns (of_records recs))
  <-> exists r, In r recs /\ In k (map fst r).
Proof.
  unfold of_records. simpl. rewrite fold_add_keys_In. simpl. tauto.
Qed.

Lemma of_records_rectangular (recs : list study) :
  rectangular (of_records recs).
Proof.
  unfold rectangular, of_records. simpl. split.
  - apply fold_add_keys_NoDup. constructor.
  - apply Forall_map, Forall_forall. intros r _. apply length_map.
Qed.

Lemma concat_columns (k : string) (df1 df2 : DataFrame) :
  In k (columns (concat df1 df2))
  <-> In k (columns df1) \/ In k (columns df2).
Proof. simpl. apply In_add_keys. Qed.

Lemma concat_rectangular (df1 df2 : DataFrame) :
  rectangular df1 -> rectangular (concat df1 df2).
Proof.
  intros [Hnd _]. unfold rectangular, concat, reindex. simpl. split.
  - now apply NoDup_add_keys.
  - apply Forall_app. split; apply Forall_map, Forall_forall;
      intros r _; apply length_map.
Qed.

Lemma fold_concat_columns (k : string) (pages : list DataFrame)
      (df : DataFrame) :
  In k (columns (fold_left concat pages df))
  <-> In k (columns df) \/ exists page, In page pages /\ In k (columns page).
Proof.
  revert df. induction pages as [|page pages IH]; intros df; simpl.
  - split; [auto | intros [H | (p & [] & _)]; exact H].
  - rewrite IH, concat_columns. split.
    + intros [[H | H] | (p & Hp & Hk)]; eauto.
    + intros [H | (p & [<- | Hp] & Hk)]; eauto.
Qed.

Lemma fold_concat_rectangular (pages : list DataFrame) (df : DataFrame) :
  rectangular df -> rectangular (fold_left concat pages df).
Proof.
  revert df. induction pages as [|page pages IH]; intros df Hdf; simpl;
    [exact Hdf|].
  apply IH. now apply concat_rectangular.
Qed.

Lemma drop_col_length (name : string) (cols : list string) (r : row) :
  List.length r = List.length cols ->
  List.length (drop_col name cols r)
  = List.length (filter (fun c => negb (String.eqb c name)) cols).
Proof.
  unfold drop_col. rewrite length_map. revert r.
  induction cols as [|c cols IH]; intros [|x r] Hlen; simpl in *;
    try reflexivity; try discriminate.
  destruct (String.eqb c name); simpl; [|f_equal]; apply IH; lia.
Qed.

Lemma delitem_rectangular (df df' : DataFrame) (name : string) :
  rectangular df -> delitem df name = Some df' -> rectangular df'.
Proof.
  intros [Hnd Hrows] Hdel. unfold rectangular.
  rewrite (delitem_columns _ _ _ Hdel), (delitem_values _ _ _ Hdel).
  split; [now apply NoDup_filter|].
  apply Forall_map. eapply Forall_impl; [|exact Hrows].
  intros r Hr. now apply drop_col_length.
Qed.

Lemma normalize_rectangular (df : DataFrame) :
  rectangular df -> rectangular (normalize df).
Proof.
  intros [Hnd Hrows]. unfold rectangular.
  rewrite normalize_columns. split; [exact Hnd|].
  apply Forall_forall. intros r' Hr'. apply normalize_In in Hr'.
  destruct Hr' as (r & Hr & ->). rewrite length_map.
  rewrite Forall_forall in Hrows. now apply Hrows.
Qed.

Section Accepted.
Variable query : string.
Variable return_fields : list string.
Variable n_lim : option Z.
Variable study_url : string.
Variable search_field : option string.
Variable srv : transport.

Local Abbreviation accumulated :=
  (accumulated query return_fields n_lim study_url search_field srv).
Local Abbreviation accepted :=
  (accepted_studies query return_fields n_lim study_url search_field srv).

(** The accumulated table has a label for every key of an accepted study,
    and no other. *)
Lemma accumulated_columns (k : string) :
  In k (columns accumulated)
  <-> exists st, In st accepted /\ In k (map fst st).
Proof.
  unfold DHTermSearch.accumulated.
  rewrite AccumulateFacts.fold_append_page, fold_concat_columns.
  rewrite of_records_columns. unfold accepted_studies.
  split.
  - intros [(st & Hst & Hk) | (page & Hpage & Hk)].
    + exists st. split; [apply in_or_app; now left | exact Hk].
    + apply in_map_iff in Hpage. destruct Hpage as (info & <- & Hinfo).
      apply of_records_columns in Hk. destruct Hk as (st & Hst & Hk).
      exists st. split; [|exact Hk].
      apply in_or_app. right. apply in_flat_map. now exists info.
  - intros (st & Hst & Hk). apply in_app_or in Hst.
    destruct Hst as [Hst | Hst]; [left; now exists st|].
    right. apply in_flat_map in Hst. destruct Hst as (info & Hinfo & Hst).
    exists (of_records (StudyFields info)). split.
    + apply in_map_iff. now exists info.
    + apply of_records_columns. now exists st.
Qed.

Lemma accumulated_rectangular : rectangular accumulated.
Proof.
  unfold DHTermSearch.accumulated.
  rewrite AccumulateFacts.fold_append_page.
  apply fold_concat_rectangular, of_records_rectangular.
Qed.

End Accepted.
End ColumnFacts.
(** ** The rows of the table, study by study *)

Module RowFacts.
Import Pandas Requests DHTermSearch PandasFacts ColumnFacts Pages.

Lemma lookup_absent (k : string) (st : study) :
  ~ In k (map fst st) -> lookup k st = NaN.
Proof.
  unfold lookup. induction st as [|[k' v] st IH]; simpl; intros Hout;
    [reflexivity|].
  destruct (String.eqb k k') eqn:E;
    [apply String.eqb_eq in E; exfalso; apply Hout; now left|].
  apply IH. intros H. apply Hout. now right.
Qed.

Lemma fst_combine_within (cols : list string) (r : row) (k : string) :
  In k (map fst (combine cols r)) -> In k cols.
Proof.
  revert r. induction cols as [|c cols IH]; intros [|x r]; simpl;
    try contradiction.
  intros [<- | H]; [now left | right; eauto].
Qed.

(** Reading a projected row back through its labels gives the study's own
    values. *)
Lemma lookup_project (cols : list string) (st : study) (c : string) :
  In c cols -> lookup c (combine cols (project cols st)) = lookup c st.
Proof.
  unfold project. induction cols as [|c' cols IH]; intros Hin;
    [contradiction|].
  cbn [map combine]. unfold lookup at 1. cbn [find fst snd].
  destruct (String.eqb c c') eqn:E.
  - apply String.eqb_eq in E. now subst c'.
  - destruct Hin as [-> | Hin]; [rewrite String.eqb_refl in E; discriminate|].
    exact (IH Hin).
Qed.

(** Laying a table out on other labels is projecting its studies on them. *)
Lemma reindex_represents (df : DataFrame) (studies : list study)
      (cols : list string) :
  represents df studies ->
  reindex df cols = map (project cols) studies.
Proof.
  intros [Hvalues Hkeys]. unfold reindex. rewrite Hvalues, map_map.
  apply map_ext_in. intros st Hst. unfold project at 2.
  apply map_ext. intros c.
  destruct (in_dec string_dec c (columns df)) as [Hin | Hout].
  - now apply lookup_project.
  - rewrite (lookup_absent c st) by (intros H; apply Hout; eauto).
    apply lookup_absent. intros H. apply Hout.
    now apply fst_combine_within in H.
Qed.

Lemma of_records_represents (recs : list study) :
  represents (of_records recs) recs.
Proof.
  split; [reflexivity|].
  intros st k Hst Hk. apply of_records_columns. now exists st.
Qed.

Lemma concat_represents (df1 df2 : DataFrame) (s1 s2 : list study) :
  represents df1 s1 -> represents df2 s2 ->
  represents (concat df1 df2) (s1 ++ s2).
Proof.
  intros H1 H2. split.
  - unfold concat. cbn [values columns].
    rewrite (reindex_represents df1 s1 _ H1),
            (reindex_represents df2 s2 _ H2), map_app.
    reflexivity.
  - intros st k Hst Hk. apply concat_columns.
    apply in_app_or in Hst. destruct Hst as [Hst | Hst];
      [left; exact (proj2 H1 st k Hst Hk) | right; exact (proj2 H2 st k Hst Hk)].
Qed.

Lemma fold_concat_represents (pages : list StudyFieldsResponse) :
  forall df studies,
    represents df studies ->
    represents
      (fold_left concat (map (fun info => of_records (StudyFields info)) pages)
                 df)
      (studies ++ flat_map StudyFields pages).
Proof.
  induction pages as [|page pages IH]; intros df studies Hdf; simpl.
  - now rewrite app_nil_r.
  - rewrite app_assoc. apply IH.
    apply concat_represents; [exact Hdf | apply of_records_represents].
Qed.

(** Dropping a label from a projected row is projecting on the other
    labels. *)
Lemma drop_col_project (name : string) (cols : list string) (st : study) :
  drop_col name cols (project cols st)
  = project (filter (fun c => negb (String.eqb c name)) cols) st.
Proof.
  unfold drop_col, project.
  induction cols as [|c cols IH]; [reflexivity|].
  cbn [map combine filter fst].
  destruct (String.eqb c name); cbn [negb map snd]; [exact IH|].
  f_equal. exact IH.
Qed.

Lemma delitem_represents (df df' : DataFrame) (name : string)
      (studies : list study) :
  represents df studies -> delitem df name = Some df' ->
  values df' = map (project (columns df')) studies.
Proof.
  intros [Hvalues _] Hdel.
  rewrite (delitem_values _ _ _ Hdel), (delitem_columns _ _ _ Hdel),
          Hvalues, map_map.
  apply map_ext. intros st. apply drop_col_project.
Qed.

Section Accepted.
Variable query : string.
Variable return_fields : list string.
Variable n_lim : option Z.
Variable study_url : string.
Variable search_field : option string.
Variable srv : transport.

Local Abbreviation call :=
  (query_ctgov_api query return_fields n_lim study_url search_field).
Local Abbreviation accumulated :=
  (accumulated query return_fields n_lim study_url search_field srv).
Local Abbreviation accepted :=
  (accepted_studies query return_fields n_lim study_url search_field srv).

(** The accumulated table holds the accepted studies, one row each. *)
Lemma accumulated_represents : represents accumulated accepted.
Proof.
  unfold DHTermSearch.accumulated, accepted_studies.
  rewrite AccumulateFacts.fold_append_page.
  apply fold_concat_represents, of_records_represents.
Qed.

(** A returned table holds the cleaned row of every accepted study, and no
    other row. *)
Lemma returned_rows (df : DataFrame) (log : list request) :
  run call srv = (Return (PyFrame df), log) ->
  (forall r',
      In r' (values df)
      <-> exists st,
            In st accepted
            /\ r' = map (fun c => clean_cell (lookup c st)) (columns df))
  /\ (columns df = [] -> List.length (values df) = List.length accepted).
Proof.
  intros Hrun.
  destruct (ReturnFacts.returned_frame _ _ _ _ _ _ _ _ Hrun)
    as (raw & Hdel & ->).
  pose proof (delitem_represents _ _ _ _ accumulated_represents Hdel)
    as Hraw.
  rewrite normalize_columns. split.
  - intros r'. rewrite normalize_In, Hraw. split.
    + intros (r & Hr & ->). apply in_map_iff in Hr.
      destruct Hr as (st & <- & Hst). exists st. split; [exact Hst|].
      unfold project. now rewrite map_map.
    + intros (st & Hst & ->). exists (project (columns raw) st).
      split; [now apply in_map | unfold project; now rewrite map_map].
  - intros Hcols. rewrite normalize_values_no_column by exact Hcols.
    now rewrite Hraw, !length_map.
Qed.

End Accepted.
End RowFacts.

(** X4: a returned table with at least one column has no two identical
    rows; one without any column (the accepted studies carry nothing but
    their rank) keeps one empty row for every accepted study.  In both cases
    the column labels are pairwise different and every row has one cell per
    column. *)
Theorem returned_rows_differ_unless_no_column :
  forall query return_fields n_lim study_url search_field srv df log,
    run (query_ctgov_api query return_fields n_lim study_url search_field) srv
    = (Return (PyFrame df), log) ->
    NoDup (columns df)
    /\ (forall r, In r (values df) ->
                  List.length r = List.length (columns df))
    /\ (columns df <> [] -> NoDup (values df))
    /\ (columns df = [] ->
        List.length (values df)
        = List.length (Pages.accepted_studies query return_fields n_lim
                                              study_url search_field srv)).
Proof.
  intros query return_fields n_lim study_url search_field srv df log Hrun.
  pose proof (RowFacts.returned_rows _ _ _ _ _ _ _ _ Hrun) as [_ Hnone].
  destruct (ReturnFacts.returned_frame _ _ _ _ _ _ _ _ Hrun)
    as (raw & Hdel & ->).
  assert (Hrect : Pages.rectangular (normalize raw)).
  { apply ColumnFacts.normalize_rectangular.
    eapply ColumnFacts.delitem_rectangular; [|exact Hdel].
    apply ColumnFacts.accumulated_rectangular. }
  destruct Hrect as [Hnd Hrows]. rewrite Forall_forall in Hrows.
  split; [exact Hnd|]. split; [exact Hrows|].
  split; [|exact Hnone].
  rewrite PandasFacts.normalize_columns.
  apply PandasFacts.normalize_NoDup.
Qed.

Lemma returned_rows_differ_unless_no_column_witness :
  let srv : transport :=
    fun _ => mkResponse 3 3 [[("Rank", Int 1)]; [("Rank", Int 2)];
                             [("Rank", Int 3)]] in
  let df := mkFrame [] [[]; []; []] in
  fst (run (query_ctgov_api "heart" ["NCTId"] None ctgov None) srv)
  = Return (PyFrame df)
  /\ List.length (values df) = 3%nat.
Proof.
  intros srv df. split; [reflexivity|].
  destruct (returned_rows_differ_unless_no_column "heart" ["NCTId"] None ctgov
              None srv df [params "heart" ["NCTId"] ctgov None 1 1000])
    as (_ & _ & _ & Hnone); [reflexivity|].
  rewrite Hnone; reflexivity.
Defined.

(** ** Later pages that report no study *)

Module SkipFacts.
Import RunFacts PandasFacts ColumnFacts RowFacts Pages.

Section Skip.
Variable query : string.
Variable return_fields : list string.
Variable n_lim : option Z.
Variable study_url : string.
Variable search_field : option string.
Variable srv : transport.

Local Abbreviation call :=
  (query_ctgov_api query return_fields n_lim study_url search_field).
Local Abbreviation first_request :=
  (params query return_fields study_url search_field 1 1000).
Local Abbreviation accumulated :=
  (accumulated query return_fields n_lim study_url search_field srv).
Local Abbreviation accepted :=
  (accepted_studies query return_fields n_lim study_url search_field srv).

Lemma returned_columns (df : DataFrame) (log : list request) :
  run call srv = (Return (PyFrame df), log) ->
  forall k,
    In k (columns df)
    <-> k <> "Rank" /\ exists st, In st accepted /\ In k (map fst st).
Proof.
  intros Hrun k.
  destruct (ReturnFacts.returned_frame _ _ _ _ _ _ _ _ Hrun)
    as (raw & Hdel & ->).
  rewrite normalize_columns, (delitem_columns _ _ _ Hdel), filter_In,
          accumulated_columns, negb_true_iff, String.eqb_neq.
  tauto.
Qed.

(** With a [Rank] key among the accepted studies the clean-up returns a
    table. *)
Lemma rank_gives_a_table :
  query <> "" -> (List.length return_fields <= 20)%nat ->
  0 < NStudiesReturned (srv first_request) ->
  (exists st, In st accepted /\ In "Rank" (map fst st)) ->
  exists df,
    run call srv
    = (Return (PyFrame df),
       first_request
         :: map (request_of query return_fields study_url search_field)
                (later_windows query return_fields n_lim study_url
                               search_field srv)).
Proof.
  intros Hq Hlen Hpos Hrank.
  rewrite run_pages by assumption.
  apply (accumulated_columns query return_fields n_lim study_url search_field
                             srv "Rank") in Hrank.
  apply mem_In in Hrank.
  unfold clean_up, delitem. rewrite Hrank. eexists. reflexivity.
Qed.

End Skip.
End SkipFacts.





(** X3: past a first page that reports studies, the call raises
    [KeyError("Rank")] exactly when no accepted study carries a [Rank] key,
    and returns a table otherwise. *)
Theorem key_error_without_rank :
  forall query return_fields n_lim study_url search_field srv,
    let out :=
      fst (run (query_ctgov_api query return_fields n_lim study_url
                                search_field) srv) in
    let accepted :=
      Pages.accepted_studies query return_fields n_lim study_url search_field
                             srv in
    query <> "" ->
    (List.length return_fields <= 20)%nat ->
    0 < NStudiesReturned
          (srv (params query return_fields study_url search_field 1 1000)) ->
    (out = KeyError "Rank"
     <-> forall st, In st accepted -> ~ In "Rank" (map fst st))
    /\ ((exists st, In st accepted /\ In "Rank" (map fst st))
        -> exists df, out = Return (PyFrame df)).
Proof.
  intros query return_fields n_lim study_url search_field srv out accepted
         Hq Hlen Hpos.
  unfold out. rewrite RunFacts.run_pages by assumption. simpl.
  pose proof (ColumnFacts.accumulated_columns query return_fields n_lim
                study_url search_field srv "Rank") as Hcols.
  fold accepted in Hcols.
  unfold clean_up, delitem.
  destruct (mem "Rank" (columns (accumulated query return_fields n_lim
                                   study_url search_field srv))) eqn:E.
  - apply PandasFacts.mem_In in E. split.
    + split; [discriminate|]. intros Hnone. exfalso.
      apply Hcols in E. destruct E as (st & Hst & Hk).
      exact (Hnone st Hst Hk).
    + intros _. eexists. reflexivity.
  - assert (Hout : ~ In "Rank"
                     (columns (accumulated query return_fields n_lim
                                 study_url search_field srv))).
    { intros H. apply PandasFacts.mem_In in H. congruence. }
    split.
    + split; [|reflexivity]. intros _ st Hst Hk.
      apply Hout, Hcols. now exists st.
    + intros Hsome. exfalso. now apply Hout, Hcols.
Qed.

Lemma key_error_without_rank_witness :
  let srv : transport :=
    fun _ => mkResponse 1 1 [[("NCTId", PyList ["NCT1"])]] in
  fst (run (query_ctgov_api "heart" ["NCTId"] None ctgov None) srv)
  = KeyError "Rank".
Proof.
  intros srv.
  apply (key_error_without_rank "heart" ["NCTId"] None ctgov None srv).
  - discriminate.
  - simpl; lia.
  - reflexivity.
  - intros st [<- | []] [H | []]. discriminate.
Defined.

(** X5: a returned table has a column for every key that an accepted study
    carries, except [Rank], and no other column. *)
Theorem returned_columns_are_the_study_keys :
  forall query return_fields n_lim study_url search_field srv df log,
    run (query_ctgov_api query return_fields n_lim study_url search_field) srv
    = (Return (PyFrame df), log) ->
    forall k,
      In k (columns df)
      <-> k <> "Rank"
          /\ exists st,
               In st (Pages.accepted_studies query return_fields n_lim
                                             study_url search_field srv)
               /\ In k (map fst st).
Proof.
  intros query return_fields n_lim study_url search_field srv df log Hrun k.
  destruct (ReturnFacts.returned_frame _ _ _ _ _ _ _ _ Hrun)
    as (raw & Hdel & ->).
  rewrite PandasFacts.normalize_columns,
          (PandasFacts.delitem_columns _ _ _ Hdel), filter_In,
          ColumnFacts.accumulated_columns, negb_true_iff, String.eqb_neq.
  tauto.
Qed.

Lemma returned_columns_are_the_study_keys_witness :
  let srv : transport :=
    fun _ => mkResponse 2 2 [[("Rank", Int 1); ("NCTId", PyList ["NCT1"])];
                             [("Rank", Int 2); ("Condition", PyList ["Flu"])]] in
  let df := mkFrame ["NCTId"; "Condition"]
                    [[Str "NCT1"; Str ""]; [Str ""; Str "Flu"]] in
  In "Condition" (columns df)
  <-> "Condition" <> "Rank"
      /\ exists st,
           In st (Pages.accepted_studies "heart" ["NCTId"] None ctgov None srv)
           /\ In "Condition" (map fst st).
Proof.
  intros srv df.
  apply (returned_columns_are_the_study_keys "heart" ["NCTId"] None ctgov None
           srv df [params "heart" ["NCTId"] ctgov None 1 1000]).
  reflexivity.
Defined.

(** X6: take a call with a non-empty query and at most 20 requested fields
    whose first page reports at least one study returned.  When the clipped
    total is at most 1000 (the registry found no more than 1000 studies, or
    the limit is 1000 or less) the first request is the only one, and the
    outcome is the clean-up of the first page alone: a limit below 1000
    does not shorten the first page. *)
Theorem small_totals_stop_after_the_first_page :
  forall query return_fields n_lim study_url search_field srv,
    let first_request := params query return_fields study_url search_field 1 1000 in
    query <> "" ->
    (List.length return_fields <= 20)%nat ->
    0 < NStudiesReturned (srv first_request) ->
    (NStudiesFound (srv first_request) <= 1000
     \/ exists lim, n_lim = Some lim /\ lim <= 1000) ->
    run (query_ctgov_api query return_fields n_lim study_url search_field) srv
    = (clean_up (of_records (StudyFields (srv first_request))),
       [first_request]).
Proof.
  intros query return_fields n_lim study_url search_field srv first_request
         Hq Hlen Hpos Hsmall.
  assert (Htotal : clipped_total query return_fields n_lim study_url
                                 search_field srv <= 1000).
  { unfold clipped_total. fold first_request.
    destruct Hsmall as [Hfound | (lim & -> & Hlim)];
      [destruct n_lim|]; lia. }
  rewrite RunFacts.run_pages by assumption.
  unfold accumulated, later_windows.
  rewrite LoopFacts.page_windows_nil by exact Htotal. reflexivity.
Qed.

Lemma small_totals_stop_after_the_first_page_witness :
  let srv := registry ["NCTId"] (numbered 1200) in
  let first_request := params "heart" ["NCTId"] ctgov None 1 1000 in
  run (query_ctgov_api "heart" ["NCTId"] (Some 10) ctgov None) srv
  = (clean_up (of_records (StudyFields (srv first_request))), [first_request]).
Proof.
  intros srv first_request.
  apply (small_totals_stop_after_the_first_page "heart" ["NCTId"] (Some 10)
           ctgov None srv).
  - discriminate.
  - simpl; lia.
  - vm_compute; reflexivity.
  - right. exists 10. split; [reflexivity | lia].
Defined.

(** ** The registry fixture under a limit *)

Module LimitFacts.
Import LoopFacts RunFacts PandasFacts RanksFacts FrameFacts RegistryFacts Pages.

Lemma nth_firstn_below {A : Type} (l : list A) (d : A) (n k : nat) :
  (k < n)%nat -> nth k (firstn n l) d = nth k l d.
Proof.
  revert l k. induction n as [|n IH]; intros l k Hk; [lia|].
  destruct l as [|x l]; [reflexivity|].
  destruct k as [|k]; simpl; [reflexivity|]. apply IH. lia.
Qed.

Lemma nil_or_not {A : Type} (l : list A) : l = [] \/ l <> [].
Proof. destruct l; [left; reflexivity | right; discriminate]. Qed.

(** A frame of at most one row has no duplicate to drop. *)
Lemma normalize_values_short (df : DataFrame) :
  (List.length (values df) <= 1)%nat ->
  values (normalize df)
  = dedup_from row_eqb [] (map (map clean_cell) (values df)).
Proof.
  intros Hlen. rewrite normalize_values.
  destruct (is_empty df); [|reflexivity].
  destruct (values df) as [|r [|r2 rows]]; simpl in *; try reflexivity; lia.
Qed.

Section Limited.
Variable flds : list string.
Variable db : list row.
Variable query : string.
Variable return_fields : list string.
Variable n_lim : option Z.
Variable study_url : string.
Variable search_field : option string.

Hypothesis flds_NoDup : NoDup flds.
Hypothesis flds_no_rank : ~ In "Rank" flds.
Hypothesis db_rows : Forall (fun r => List.length r = List.length flds) db.

Local Abbreviation N := (Z.of_nat (List.length db)).
Local Abbreviation cols := ("Rank" :: flds).
Local Abbreviation entry := (fun i : Z => nth (Z.to_nat (i - 1)) db []).
Local Abbreviation ranked := (fun i : Z => Int i :: entry i).
Local Abbreviation srv := (registry flds db).
Local Abbreviation first_request :=
  (params query return_fields study_url search_field 1 1000).
Local Abbreviation n_total :=
  (clipped_total query return_fields n_lim study_url search_field srv).
Local Abbreviation later :=
  (later_windows query return_fields n_lim study_url search_field srv).
Local Abbreviation ranks_of :=
  (flat_map (fun w : Z * Z => ranks (fst w) (snd w))).
(** How many studies are served: the requests reach rank
    [max 1000 n_total], the registry holds [N]. *)
Local Abbreviation served := (Z.min N (Z.max 1000 n_total)).

Hypothesis some_study : 1 <= N.
Hypothesis cleaned_NoDup :
  NoDup (map (map clean_cell) (first_studies served db)).

Lemma total_le : n_total <= N.
Proof.
  unfold clipped_total. simpl. destruct n_lim; lia.
Qed.

(** The first page: the registry cuts the window [1, 1000] at [N]. *)
Lemma registry_first_page :
  0 < NStudiesReturned (srv first_request) /\
  of_records (StudyFields (srv first_request))
  = mkFrame cols (map ranked (ranks 1 (Z.min N 1000))).
Proof.
  unfold registry. cbn [min_rnk max_rnk params].
  rewrite Z.max_l by lia.
  cbn [NStudiesReturned StudyFields]. split.
  - rewrite length_map, ranks_length. lia.
  - rewrite (of_records_uniform cols).
    + f_equal. rewrite map_map. apply map_ext_in. intros i Hi.
      apply In_ranks in Hi.
      apply (study_at_row flds db flds_NoDup flds_no_rank db_rows). lia.
    + now apply cols_NoDup.
    + rewrite (ranks_cons 1 (Z.min N 1000)) by lia. discriminate.
    + intros r Hr. apply in_map_iff in Hr. destruct Hr as (i & <- & Hi).
      apply In_ranks in Hi. apply (study_at_keys flds db db_rows). lia.
Qed.

Lemma later_cases :
  (n_total <= 1000 /\ later = [])
  \/ (1000 < n_total /\
      Forall (fun w => 1 <= fst w /\ fst w <= snd w /\ snd w <= N) later).
Proof.
  destruct (Z_le_gt_dec n_total 1000) as [Hsmall | Hbig].
  - left. split; [exact Hsmall|]. unfold later_windows.
    now apply page_windows_nil.
  - right. split; [lia|]. unfold later_windows.
    eapply Forall_impl;
      [|apply (page_windows_valid (loop_fuel n_total 1000) n_total 1 1000);
        lia].
    intros w Hw. pose proof total_le. simpl in Hw. lia.
Qed.

Lemma accumulated_limited :
  accumulated query return_fields n_lim study_url search_field srv
  = mkFrame cols (map ranked (ranks 1 (Z.min N 1000) ++ ranks_of later)).
Proof.
  unfold accumulated. destruct registry_first_page as [_ Hpage]. rewrite Hpage.
  apply (fold_registry flds db flds_NoDup flds_no_rank db_rows).
  - destruct later_cases as [[_ Hnil] | [_ Hvalid]];
      [rewrite Hnil; constructor | exact Hvalid].
  - apply ranks_in_range; lia.
Qed.

(** Dropping the repeats among the requested ranks leaves the ranks of the
    studies served, each once and in order. *)
Lemma requested_dedup_limited :
  dedup_from Z.eqb [] (ranks 1 (Z.min N 1000) ++ ranks_of later)
  = ranks 1 served.
Proof.
  destruct later_cases as [[Hsmall Hnil] | [Hbig _]].
  - rewrite Hnil. simpl. rewrite app_nil_r.
    rewrite (dedup_fresh Z.eqb Z.eqb_eq) by (try apply NoDup_ranks; auto).
    f_equal. lia.
  - pose proof total_le as Hle.
    rewrite (dedup_app Z.eqb Z.eqb_eq).
    rewrite (dedup_fresh Z.eqb Z.eqb_eq) by (try apply NoDup_ranks; auto).
    replace (Z.min N 1000) with 1000 by lia.
    unfold later_windows.
    rewrite (dedup_later_ranks _ n_total 1 1000); try lia.
    + replace served with n_total by lia.
      apply (ranks_app 1 1000 n_total); lia.
    + intros x. rewrite app_nil_r, In_ranks. tauto.
Qed.

Lemma requested_served :
  Forall (fun i => 1 <= i <= served)
         (ranks 1 (Z.min N 1000) ++ ranks_of later).
Proof.
  apply Forall_forall. intros i Hi.
  assert (Hin : In i (dedup_from Z.eqb []
                        (ranks 1 (Z.min N 1000) ++ ranks_of later)))
    by (apply (dedup_In Z.eqb Z.eqb_eq); split; [exact Hi | intros []]).
  rewrite requested_dedup_limited in Hin. now apply In_ranks in Hin.
Qed.

Lemma served_inj (i j : Z) :
  1 <= i <= served -> 1 <= j <= served ->
  map clean_cell (entry i) = map clean_cell (entry j) -> i = j.
Proof.
  intros Hi Hj E.
  pose proof (proj1 (NoDup_nth (map (map clean_cell) (first_studies served db))
                               (map clean_cell []))
                    cleaned_NoDup (Z.to_nat (i - 1)) (Z.to_nat (j - 1))) as H.
  unfold first_studies in H.
  rewrite length_map, length_firstn in H. rewrite !map_nth in H.
  rewrite !nth_firstn_below in H by lia.
  assert (Hij : Z.to_nat (i - 1) = Z.to_nat (j - 1))
    by (unfold row in *; apply H; [lia | lia | exact E]).
  lia.
Qed.

Lemma entries_served :
  map (fun i => map clean_cell (entry i)) (ranks 1 served)
  = map (map clean_cell) (first_studies served db).
Proof.
  unfold ranks, first_studies. rewrite map_map.
  replace (Z.to_nat (served - 1 + 1)) with (Z.to_nat served) by lia.
  transitivity
    (map (map clean_cell)
         (map (fun k => nth k (firstn (Z.to_nat served) db) [])
              (seq 0 (List.length (firstn (Z.to_nat served) db)))));
    [|now rewrite nth_seq_all].
  rewrite length_firstn.
  replace (Init.Nat.min (Z.to_nat served) (List.length db))
    with (Z.to_nat served) by (unfold row in *; lia).
  rewrite map_map. apply map_ext_in. intros k Hk. apply in_seq in Hk.
  rewrite nth_firstn_below by lia. do 2 f_equal. lia.
Qed.

(** Without a field the studies served are all alike, so there is one. *)
Lemma one_study_without_field : flds = [] -> N = 1 /\ later = [].
Proof.
  intros E.
  assert (Hle : (List.length (first_studies served db) <= 1)%nat).
  { refine (no_cell_rows_alike _ _ cleaned_NoDup).
    unfold first_studies. apply Forall_forall. intros r Hr.
    assert (Hdb : In r db)
      by (rewrite <- (firstn_skipn (Z.to_nat served) db);
          apply in_or_app; now left).
    pose proof db_rows as Hrows. rewrite Forall_forall in Hrows.
    now rewrite (Hrows r Hdb), E. }
  unfold first_studies in Hle. rewrite length_firstn in Hle.
  pose proof total_le as Htot.
  assert (HN : N = 1) by (unfold row in *; lia).
  split; [exact HN|].
  destruct later_cases as [[_ Hnil] | [Hbig _]]; [exact Hnil | lia].
Qed.

Lemma requested_normalize (rows : list row) :
  List.length rows
  = List.length (ranks 1 (Z.min N 1000) ++ ranks_of later)%list ->
  values (normalize (mkFrame flds rows))
  = dedup_from row_eqb [] (map (map clean_cell) rows).
Proof.
  intros Hrows.
  destruct (nil_or_not flds) as [E | E].
  - apply normalize_values_short. cbn [values]. rewrite Hrows.
    destruct (one_study_without_field E) as [HN Hnil].
    rewrite Hnil. cbn [flat_map]. rewrite app_nil_r, ranks_length.
    lia.
  - now apply normalize_values_columns.
Qed.

Lemma run_registry_limited :
  query <> "" -> (List.length return_fields <= 20)%nat ->
  fst (run (query_ctgov_api query return_fields n_lim study_url search_field)
           srv)
  = Return (PyFrame (mkFrame flds
                             (map (map clean_cell) (first_studies served db)))).
Proof.
  intros Hq Hlen.
  rewrite run_pages; [| exact Hq | exact Hlen | exact (proj1 registry_first_page)].
  cbn [fst]. rewrite accumulated_limited. unfold clean_up, delitem.
  cbn [columns values mem existsb String.eqb Ascii.eqb Bool.eqb orb filter negb].
  rewrite (filter_others "Rank" flds flds_no_rank).
  do 2 f_equal.
  apply frame_eq; [apply normalize_columns|].
  rewrite requested_normalize by (now rewrite !length_map).
  cbn [values]. rewrite !map_map.
  transitivity
    (dedup_from row_eqb (map (fun i => map clean_cell (entry i)) [])
                (map (fun i => map clean_cell (entry i))
                     (ranks 1 (Z.min N 1000) ++ ranks_of later))).
  - cbn [map]. f_equal. apply map_ext_in. intros i Hi.
    pose proof requested_served as Hr. rewrite Forall_forall in Hr.
    specialize (Hr i Hi).
    rewrite (drop_rank flds db flds_no_rank db_rows) by lia. reflexivity.
  - etransitivity;
      [exact (dedup_map Z.eqb row_eqb
                (fun i => map clean_cell (entry i))
                (fun i => 1 <= i <= served) Z.eqb_eq row_eqb_eq served_inj
                _ [] requested_served (Forall_nil _))|].
    rewrite requested_dedup_limited. apply entries_served.
Qed.

End Limited.
End LimitFacts.



(* ================================================================== *)
(** * The PubMed Central functions *)

Module DictFacts.
Import Pandas PyText PandasFacts.

Lemma getitem_setitem (k k' : string) (v : pyval) (d : pydict) :
  getitem k (setitem k' v d)
  = if String.eqb k k' then Some v else getitem k d.
Proof.
  induction d as [|[k0 v0] d IH]; simpl.
  - destruct (String.eqb k k'); reflexivity.
  - destruct (String.eqb k' k0) eqn:E0; simpl.
    + apply String.eqb_eq in E0. subst k0.
      destruct (String.eqb k k'); reflexivity.
    + destruct (String.eqb k k0) eqn:E1; [|exact IH].
      apply String.eqb_eq in E1. subst k0.
      rewrite String.eqb_sym, E0. reflexivity.
Qed.

Lemma getitem_absent (k : string) (d : pydict) :
  ~ In k (keys d) -> getitem k d = None.
Proof.
  induction d as [|[k0 v0] d IH]; simpl; intros Hout; [reflexivity|].
  destruct (String.eqb k k0) eqn:E;
    [apply String.eqb_eq in E; exfalso; apply Hout; now left|].
  apply IH. intros H. apply Hout. now right.
Qed.

(** After [d.update(other)] a key of [other] has the value [other] gives
    it, any other key the value it had. *)
Lemma getitem_update (k : string) (other d : pydict) :
  NoDup (keys other) ->
  getitem k (update d other)
  = match getitem k other with
    | Some v => Some v
    | None => getitem k d
    end.
Proof.
  unfold update. revert d.
  induction other as [|[k' v'] other IH]; intros d Hnd; simpl; [reflexivity|].
  inversion Hnd as [|? ? Hk' Hnd']; subst.
  rewrite (IH _ Hnd'), getitem_setitem.
  destruct (String.eqb k k') eqn:E; [|reflexivity].
  apply String.eqb_eq in E. subst k'.
  now rewrite (getitem_absent k other Hk').
Qed.

Lemma keys_setitem (k : string) (v : pyval) (d : pydict) :
  keys (setitem k v d) = add_keys (keys d) [k].
Proof.
  unfold add_keys, keys, mem. cbn [fold_left].
  induction d as [|[k0 v0] d IH]; [reflexivity|].
  cbn [setitem map fst existsb].
  destruct (String.eqb k k0) eqn:E; cbn [orb map fst].
  - apply String.eqb_eq in E. now subst k0.
  - rewrite IH.
    destruct (existsb (String.eqb k) (map fst d)); reflexivity.
Qed.

Lemma keys_update (other d : pydict) :
  keys (update d other) = add_keys (keys d) (keys other).
Proof.
  unfold update, add_keys. revert d.
  induction other as [|[k v] other IH]; intros d; simpl; [reflexivity|].
  rewrite IH. f_equal. apply keys_setitem.
Qed.

(** New labels go last, in the order they come. *)
Lemma add_keys_filter (ks cols : list string) :
  NoDup ks ->
  add_keys cols ks = (cols ++ filter (fun k => negb (mem k cols)) ks)%list.
Proof.
  unfold add_keys. revert cols.
  induction ks as [|x ks IH]; intros cols Hnd; simpl;
    [now rewrite app_nil_r|].
  inversion Hnd as [|? ? Hx Hnd']; subst.
  destruct (mem x cols) eqn:E; simpl; [now apply IH|].
  rewrite (IH _ Hnd'), <- app_assoc. simpl. do 2 f_equal.
  apply filter_ext_in. intros k Hk. f_equal.
  unfold mem. rewrite existsb_app. simpl.
  destruct (String.eqb k x) eqn:Ekx;
    [apply String.eqb_eq in Ekx; subst; contradiction|].
  now rewrite !orb_false_r.
Qed.

End DictFacts.

Module SplitFacts.
Import PyText.

Lemma append_assoc (s1 s2 s3 : string) : (s1 ++ s2) ++ s3 = s1 ++ s2 ++ s3.
Proof. induction s1 as [|a s1 IH]; simpl; congruence. Qed.

Lemma append_empty_r (s : string) : s ++ "" = s.
Proof. induction s as [|a s IH]; simpl; congruence. Qed.

Lemma startswith_append (sep rest : string) :
  startswith sep (sep ++ rest) = true.
Proof.
  induction sep as [|a sep IH]; simpl; [reflexivity|].
  now rewrite Ascii.eqb_refl.
Qed.

Lemma startswith_self (sep : string) : startswith sep sep = true.
Proof.
  induction sep as [|a sep IH]; simpl; [reflexivity|].
  now rewrite Ascii.eqb_refl.
Qed.

Lemma occurs_suffix (sep p1 p2 : string) :
  occurs sep (p1 ++ p2) = false -> occurs sep p2 = false.
Proof.
  induction p1 as [|a p1 IH]; simpl; [tauto|].
  intros H. apply orb_false_iff in H. destruct H as [_ H]. auto.
Qed.

Lemma occurs_head (sep s : string) :
  occurs sep s = false -> startswith sep s = false.
Proof.
  destruct s; simpl; intros H; apply orb_false_iff in H; tauto.
Qed.

(** A string without the separator is one piece. *)
Lemma split_go_plain (sep s piece : string) :
  occurs sep s = false -> split_go sep 0 piece s = [piece ++ s].
Proof.
  revert piece. induction s as [|a s IH]; intros piece H.
  - simpl. now rewrite append_empty_r.
  - pose proof (occurs_head _ _ H) as Hp.
    cbn [occurs] in H. apply orb_false_iff in H. destruct H as [_ H].
    cbn [split_go]. rewrite Hp. rewrite (IH _ H).
    f_equal. rewrite append_assoc. reflexivity.
Qed.

Lemma split_go_skip (sep u rest piece : string) :
  split_go sep (String.length u) piece (u ++ rest)
  = match u with
    | EmptyString => split_go sep 0 piece rest
    | String _ _ => split_go sep 0 piece rest
    end.
Proof.
  induction u as [|a u IH]; simpl; [reflexivity|].
  rewrite IH. destruct u; reflexivity.
Qed.

(** If the separator starts [pre] continued by [t], either it lies within
    [pre] or [pre] is the start of it. *)
Lemma startswith_cases (sep pre t : string) :
  startswith sep (pre ++ t) = true ->
  startswith sep pre = true
  \/ exists w, sep = pre ++ w /\ startswith w t = true.
Proof.
  revert pre. induction sep as [|a sep IH]; intros pre H.
  - left. reflexivity.
  - destruct pre as [|b pre].
    + right. exists (String a sep). split; [reflexivity | exact H].
    + simpl in H |- *. apply andb_true_iff in H. destruct H as [Hab H].
      rewrite Hab. apply Ascii.eqb_eq in Hab. subst b.
      destruct (IH pre H) as [Hin | (w & -> & Hw)]; [now left|].
      right. exists w. split; [reflexivity | exact Hw].
Qed.

Lemma contains_append (c : ascii) (u v : string) :
  Py.contains c (u ++ String c v) = true.
Proof.
  induction u as [|a u IH]; simpl.
  - now rewrite Ascii.eqb_refl.
  - rewrite IH. apply orb_true_r.
Qed.

Section Separator.
(** A separator whose first character occurs nowhere else in it. *)
Variable c : ascii.
Variable sep' : string.
Hypothesis first_once : Py.contains c sep' = false.

Local Abbreviation sep := (String c sep').

(** No separator starts inside a piece that does not contain one, even when
    a separator follows the piece. *)
Lemma no_early_start (p2 rest : string) :
  p2 <> EmptyString ->
  occurs sep p2 = false ->
  startswith sep (p2 ++ sep ++ rest) = false.
Proof.
  intros Hne Hocc.
  destruct (startswith sep (p2 ++ sep ++ rest)) eqn:E; [|reflexivity].
  exfalso. apply startswith_cases in E.
  destruct E as [Hin | (w & Hsep & Hw)].
  - apply occurs_head in Hocc. congruence.
  - destruct p2 as [|b p2]; [contradiction|].
    simpl in Hsep. injection Hsep as <- Hsep'.
    destruct w as [|d w].
    + rewrite append_empty_r in Hsep'. subst sep'.
      apply occurs_head in Hocc. rewrite startswith_self in Hocc.
      discriminate.
    + simpl in Hw. apply andb_true_iff in Hw. destruct Hw as [Hdc _].
      apply Ascii.eqb_eq in Hdc. subst d.
      rewrite Hsep', contains_append in first_once. discriminate.
Qed.

Lemma split_go_piece (p rest piece : string) :
  occurs sep p = false ->
  split_go sep 0 piece (p ++ sep ++ rest)
  = (piece ++ p) :: split_go sep 0 "" rest.
Proof.
  revert piece. induction p as [|a p IH]; intros piece Hocc.
  - rewrite append_empty_r.
    change ("" ++ sep ++ rest) with (String c (sep' ++ rest)).
    cbn [split_go].
    change (String c (sep' ++ rest)) with (sep ++ rest).
    rewrite startswith_append. f_equal.
    cbn [String.length]. rewrite Nat.sub_1_r. cbn [Nat.pred].
    rewrite split_go_skip. destruct sep'; reflexivity.
  - pose proof (no_early_start (String a p) rest
                               ltac:(discriminate) Hocc) as Hp.
    change (String a p ++ sep ++ rest) with (String a (p ++ sep ++ rest))
      in Hp |- *.
    cbn [split_go]. rewrite Hp.
    rewrite IH by (exact (occurs_suffix sep (String a "") p Hocc)).
    rewrite append_assoc. reflexivity.
Qed.

(** Pieces that hold no separator, each followed by one, then a tail that
    holds none: splitting gives the pieces and the tail back. *)
Lemma split_by_pieces (pieces : list string) (tail : string) :
  Forall (fun p => occurs sep p = false) pieces ->
  occurs sep tail = false ->
  split_by sep (fold_right (fun p rest => p ++ sep ++ rest) tail pieces)
  = (pieces ++ [tail])%list.
Proof.
  unfold split_by. intros Hp Ht.
  induction Hp as [|p pieces Hocc _ IH]; cbn [fold_right app].
  - now rewrite split_go_plain.
  - rewrite split_go_piece by exact Hocc. cbn [append]. f_equal. exact IH.
Qed.

End Separator.

Lemma split_go_nonempty (sep : string) (s : string) :
  forall skip piece, split_go sep skip piece s <> [].
Proof.
  induction s as [|a s IH]; intros skip piece; simpl; [discriminate|].
  destruct skip; [|apply IH].
  destruct (startswith sep (String a s)); [discriminate | apply IH].
Qed.

End SplitFacts.

Import PyText PMC.

(** X8: [get_pmc_ids] issues one esearch request and hands its answer back;
    in the payload every key of [search_params] has the value the caller
    gave it, also [term] and [db], so a caller-supplied [term] replaces the
    [query] argument; any other key has its default ([db] pmc, [term] the
    query, [retmode] json, [retmax] 9999). *)
Theorem search_params_override_the_defaults :
  forall (json : Type) query search_params
         (esearch : string -> pydict -> json),
    NoDup (keys search_params) ->
    exists payload,
      get_pmc_ids json query search_params esearch
      = (esearch (base_url ++ "esearch.fcgi") payload,
         [(base_url ++ "esearch.fcgi", payload)])
      /\ forall k,
           getitem k payload
           = match getitem k search_params with
             | Some v => Some v
             | None =>
                 getitem k [("db", PStr "pmc"); ("term", PStr query);
                            ("retmode", PStr "json"); ("retmax", PInt 9999)]
             end.
Proof.
  intros json query search_params esearch Hnd.
  exists (search_payload query search_params).
  split; [reflexivity|].
  intros k. unfold search_payload. now apply DictFacts.getitem_update.
Qed.

Lemma search_params_override_the_defaults_witness :
  exists payload,
    snd (get_pmc_ids string "digital health"
                     [("retmax", PInt 20); ("term", PStr "telehealth")]
                     (fun _ _ => "{}"))
    = [(base_url ++ "esearch.fcgi", payload)]
    /\ getitem "term" payload = Some (PStr "telehealth")
    /\ getitem "db" payload = Some (PStr "pmc").
Proof.
  destruct (search_params_override_the_defaults string "digital health"
              [("retmax", PInt 20); ("term", PStr "telehealth")]
              (fun _ _ => "{}"))
    as (payload & Hrun & Hget).
  - repeat constructor; simpl; intuition discriminate.
  - exists payload. rewrite Hrun. split; [reflexivity|].
    split; [rewrite (Hget "term") | rewrite (Hget "db")]; reflexivity.
Defined.

(** X9: the payload of [get_pmc_ids] lists the four default keys first, in
    the order [db], [term], [retmode], [retmax], then the caller's keys that
    are not defaults, in the caller's order; no key occurs twice. *)
Theorem search_payload_keys :
  forall query search_params,
    NoDup (keys search_params) ->
    keys (search_payload query search_params)
    = (["db"; "term"; "retmode"; "retmax"]
       ++ filter (fun k => negb (Pandas.mem k ["db"; "term"; "retmode"; "retmax"]))
                 (keys search_params))%list
    /\ NoDup (keys (search_payload query search_params)).
Proof.
  intros query search_params Hnd. unfold search_payload.
  rewrite DictFacts.keys_update. split.
  - now apply DictFacts.add_keys_filter.
  - apply ColumnFacts.NoDup_add_keys.
    repeat constructor; simpl; intuition discriminate.
Qed.

Lemma search_payload_keys_witness :
  keys (search_payload "digital health"
                       [("retmax", PInt 20); ("sort", PStr "date")])
  = ["db"; "term"; "retmode"; "retmax"; "sort"].
Proof.
  destruct (search_payload_keys "digital health"
              [("retmax", PInt 20); ("sort", PStr "date")]) as [Hkeys _].
  - repeat constructor; simpl; intuition discriminate.
  - rewrite Hkeys. reflexivity.
Defined.

(** X10: when the answer holds k articles, each closed by its end tag, and
    then a tail, [fetch_full_pmc_text] returns k + 1 entries: one parsed from
    each article (without its end tag) and a last one parsed from the tail,
    which is there even when the tail is empty. *)
Theorem one_entry_per_article_and_one_for_the_tail :
  forall find_text uid_list efetch arts tail,
    efetch (base_url ++ "efetch.fcgi") (fetch_payload uid_list)
    = closed_articles arts tail ->
    Forall (fun a => occurs "</article>" a = false) arts ->
    occurs "</article>" tail = false ->
    fst (fetch_full_pmc_text find_text uid_list efetch)
    = (map (parse_article find_text) arts
       ++ [parse_article find_text tail])%list
    /\ List.length (fst (fetch_full_pmc_text find_text uid_list efetch))
       = S (List.length arts).
Proof.
  intros find_text uid_list efetch arts tail Hresp Harts Htail.
  assert (E : fst (fetch_full_pmc_text find_text uid_list efetch)
              = (map (parse_article find_text) arts
                 ++ [parse_article find_text tail])%list).
  { unfold fetch_full_pmc_text. cbn [fst]. rewrite Hresp.
    unfold closed_articles.
    rewrite (SplitFacts.split_by_pieces "<"%char "/article>" eq_refl
               arts tail Harts Htail).
    now rewrite map_app. }
  split; [exact E|].
  rewrite E, length_app, length_map. simpl. lia.
Qed.

Lemma one_entry_per_article_and_one_for_the_tail_witness :
  let find_text :=
    fun (name : string) (_ : option (string * string)) (markup : string) =>
      if occurs ("<" ++ name ++ ">") markup then Some markup else None in
  let efetch :=
    fun (_ : string) (_ : pydict) =>
      "<article><body>one</body></article><article><body>two</body></article>" in
  List.length (fst (fetch_full_pmc_text find_text ["1"; "2"] efetch)) = 3%nat.
Proof.
  intros find_text efetch.
  destruct (one_entry_per_article_and_one_for_the_tail find_text ["1"; "2"]
              efetch
              ["<article><body>one</body>"; "<article><body>two</body>"] "")
    as [_ Hlen].
  - reflexivity.
  - repeat constructor.
  - reflexivity.
  - exact Hlen.
Defined.

(** X11: [fetch_full_pmc_text] never returns an empty list, whatever the
    identifiers and the answer (an empty [uid_list] is sent all the same),
    and it issues exactly one request, whose [id] is the comma-joined
    [uid_list]. *)
Theorem fetch_never_returns_an_empty_list :
  forall find_text uid_list efetch,
    fst (fetch_full_pmc_text find_text uid_list efetch) <> []
    /\ exists url payload,
         snd (fetch_full_pmc_text find_text uid_list efetch) = [(url, payload)]
         /\ getitem "id" payload = Some (PStr (Py.join "," uid_list)).
Proof.
  intros find_text uid_list efetch. split.
  - unfold fetch_full_pmc_text. cbn [fst]. unfold split_by.
    intros H. apply map_eq_nil in H.
    exact (SplitFacts.split_go_nonempty _ _ _ _ H).
  - eexists. eexists. split; reflexivity.
Qed.

(* ================================================================== *)
(** * The table and sentence helpers of figures.py *)

Module MaskFacts.
Import Figures.

Lemma filter_split_permutation {A : Type} (f g : A -> bool) (l : list A) :
  (forall x, g x = negb (f x)) ->
  Permutation (filter g l ++ filter f l) l.
Proof.
  intros Hfg. induction l as [|x l IH]; simpl; [constructor|].
  rewrite Hfg. destruct (f x); simpl.
  - apply Permutation_sym, Permutation_cons_app, Permutation_sym, IH.
  - now constructor.
Qed.

Lemma geb_ltb (x m : Z) : (x >=? m) = negb (x <? m).
Proof. rewrite Z.geb_leb, Z.ltb_antisym, negb_involutive. reflexivity. Qed.

Lemma wrap_int64_range (z : Z) : is_int64 (wrap_int64 z).
Proof.
  unfold is_int64, wrap_int64.
  pose proof (Z.mod_pos_bound (z + 9223372036854775808)
                              18446744073709551616).
  lia.
Qed.

Lemma wrap_int64_exact (z : Z) : is_int64 z -> wrap_int64 z = z.
Proof.
  unfold is_int64, wrap_int64. intros H.
  rewrite Z.mod_small by lia. lia.
Qed.

End MaskFacts.

Import Figures.

(** X12: [mask_small_group] neither drops nor repeats a group: the rows of
    the result are the rows of the input, those at or above [min_n] first and
    the masked ones after them. *)
Theorem masking_keeps_every_group :
  forall (float : Type) (truediv : Z -> Z -> float) (A : Type)
         (demographics : list (group A)) (min_n : Z),
    let result := mask_small_group float truediv A demographics min_n in
    Permutation (map (m_other float A) result) (map (other A) demographics)
    /\ List.length result = List.length demographics.
Proof.
  intros float truediv A demographics min_n result.
  assert (P : Permutation (map (m_other float A) result)
                          (map (other A) demographics)).
  { unfold result, mask_small_group. rewrite map_app, !map_map. cbn [m_other].
    rewrite <- map_app. apply Permutation_map.
    apply MaskFacts.filter_split_permutation.
    intros g. apply MaskFacts.geb_ltb. }
  split; [exact P|].
  apply Permutation_length in P. now rewrite !length_map in P.
Qed.

(** X13: on a table whose counts are int64 values, no count below [min_n]
    is shown.  A row of the result either shows the count of a group that
    has at least [min_n], with that count divided by the sum of the count
    column (masked groups included in the sum), or it stands for a group
    below [min_n] and shows the label "<10", whatever [min_n] is, and no
    proportion.  The sum of the column is an int64: it is the sum of the
    counts when that is within the int64 range, and wraps around
    otherwise. *)
Theorem masking_hides_small_counts :
  forall (float : Type) (truediv : Z -> Z -> float) (A : Type)
         (demographics : list (group A)) (min_n : Z),
    Forall (fun g => is_int64 (count A g)) demographics ->
    (forall r : masked float A,
        In r (mask_small_group float truediv A demographics min_n) ->
        exists g,
          In g demographics /\ m_other float A r = other A g /\
          ((min_n <= count A g
            /\ m_count float A r = Count (count A g)
            /\ m_proportion float A r
               = Proportion float
                   (truediv (count A g) (count_sum A demographics)))
           \/ (count A g < min_n
               /\ m_count float A r = Label "<10"
               /\ m_proportion float A r = NoProportion float)))
    /\ is_int64 (count_sum A demographics)
    /\ (is_int64 (fold_left Z.add (map (count A) demographics) 0) ->
        count_sum A demographics
        = fold_left Z.add (map (count A) demographics) 0).
Proof.
  intros float truediv A demographics min_n _.
  split; [|split].
  - intros r Hr.
    unfold mask_small_group in Hr. apply in_app_or in Hr.
    destruct Hr as [Hr | Hr]; apply in_map_iff in Hr;
      destruct Hr as (g & <- & Hg); apply filter_In in Hg;
      destruct Hg as [Hg Hc]; exists g; (split; [exact Hg|]);
      (split; [reflexivity|]).
    + left. rewrite Z.geb_leb in Hc. apply Z.leb_le in Hc. auto.
    + right. apply Z.ltb_lt in Hc. auto.
  - apply MaskFacts.wrap_int64_range.
  - apply MaskFacts.wrap_int64_exact.
Qed.

Lemma masking_hides_small_counts_witness :
  let demographics := [mkGroup string "A" 3; mkGroup string "B" 30] in
  let r := mkMasked Z string "A" (Label "<10") (NoProportion Z) in
  (exists g, In g demographics /\ count string g < 5
             /\ m_count Z string r = Label "<10")
  /\ count_sum string demographics = 33.
Proof.
  intros demographics r.
  destruct (masking_hides_small_counts Z Z.div string demographics 5)
    as (Hrows & _ & Hsum).
  - repeat constructor; discriminate.
  - split.
    + destruct (Hrows r)
        as (g & Hg & _ & [(Hge & Hc & _) | (Hlt & Hc & _)]).
      * right. left. reflexivity.
      * discriminate Hc.
      * exists g. auto.
    + rewrite Hsum; [reflexivity|].
      split; discriminate.
Defined.

(** The sum of an int64 column leaves the int64 range without an error:
    two groups of 2^62 add up to -2^63. *)
Lemma count_sum_wraps :
  count_sum string [mkGroup string "A" 4611686018427387904;
                    mkGroup string "B" 4611686018427387904]
  = -9223372036854775808.
Proof. reflexivity. Qed.

Module SentenceFacts.

Lemma In_snoc (s y : string) (l : list string) :
  In s (l ++ [y]) <-> In s l \/ s = y.
Proof.
  rewrite in_app_iff. simpl. split.
  - intros [H | [H | []]]; auto.
  - intros [H | H]; auto.
Qed.

Section Scan.
Variable search : string -> string -> bool.
Variable term : string.
Variable note : list string.

(** What the loop has collected when it ends: what it started with, and the
    sentences at or next to a matching position still to visit. *)
Lemma scan_In (s : string) :
  forall rest pre curr_sent,
    note = (pre ++ rest)%list ->
    In s (scan search term note (List.length pre) rest curr_sent)
    <-> In s curr_sent
        \/ exists i,
             (List.length pre <= i < List.length note)%nat /\
             search term (nth i note "") = true /\
             (s = nth i note ""
              \/ ((0 < i)%nat /\ s = nth (i - 1) note "")
              \/ ((i + 1 < List.length note)%nat /\ s = nth (i + 1) note "")).
Proof.
  induction rest as [|x rest IH]; intros pre curr_sent Hnote.
  - simpl. split; [auto|]. intros [H | (i & Hi & _)]; [exact H|].
    rewrite Hnote, app_nil_r in Hi. lia.
  - assert (Hx : nth (List.length pre) note "" = x)
      by (rewrite Hnote, app_nth2, Nat.sub_diag by lia; reflexivity).
    assert (Hlen : (List.length pre < List.length note)%nat)
      by (rewrite Hnote, length_app; simpl; lia).
    cbn [scan].
    replace (S (List.length pre)) with (List.length (pre ++ [x]))
      by (rewrite length_app; simpl; lia).
    rewrite IH by (rewrite <- app_assoc; exact Hnote).
    rewrite length_app. cbn [List.length].
    set (here := List.length pre) in *.
    assert (Hstep :
      In s (if search term x
            then
              let c := (curr_sent ++ [x])%list in
              let c := if (0 <? here)%nat
                       then (c ++ [nth (here - 1) note ""])%list else c in
              if (here <? List.length note - 1)%nat
              then (c ++ [nth (here + 1) note ""])%list else c
            else curr_sent)
      <-> In s curr_sent
          \/ (search term x = true /\
              (s = x
               \/ ((0 < here)%nat /\ s = nth (here - 1) note "")
               \/ ((here + 1 < List.length note)%nat
                   /\ s = nth (here + 1) note "")))).
    { destruct (search term x); [|split; [auto | intros [H | [H _]];
                                                 [exact H | discriminate]]].
      cbn zeta.
      destruct (Nat.ltb_spec here (List.length note - 1)) as [E1 | E1];
        destruct (Nat.ltb_spec 0 here) as [E0 | E0];
        rewrite ?In_snoc; intuition (try discriminate; try lia). }
    rewrite Hstep. split.
    + intros [[H | (Hs & Hnear)] | (i & Hi & Hm & Hnear)].
      * now left.
      * right. exists here. rewrite Hx. repeat split; try lia; auto.
      * right. exists i. repeat split; try lia; auto.
    + intros [H | (i & Hi & Hm & Hnear)]; [now left; left|].
      destruct (Nat.eq_dec i here) as [-> | Hne].
      * left. right. rewrite Hx in Hm, Hnear. auto.
      * right. exists i. repeat split; try lia; auto.
Qed.

Lemma scan_all (s : string) :
  In s (scan search term note 0 note []) <-> near_match search term note s.
Proof.
  rewrite (scan_In s note [] [] eq_refl). unfold near_match. simpl. split.
  - intros [[] | (i & Hi & H)]. exists i. split; [lia | exact H].
  - intros (i & Hi & H). right. exists i. split; [lia | exact H].
Qed.

Lemma near_match_in_note (s : string) :
  near_match search term note s -> In s note.
Proof.
  intros (i & Hi & _ & [-> | [[_ ->] | [H ->]]]); apply nth_In; lia.
Qed.

Lemma match_is_near (s : string) :
  In s (filter (search term) note) -> near_match search term note s.
Proof.
  intros H. apply filter_In in H. destruct H as [Hin Hm].
  destruct (In_nth _ _ "" Hin) as (i & Hi & Hnth).
  exists i. rewrite Hnth. auto.
Qed.

End Scan.
End SentenceFacts.

(** X14: with [extend] set, the entry of a note holds, each once, exactly
    the sentences of that note that match the term or stand directly before
    or after a matching sentence. *)
Theorem extended_entry_is_the_matches_and_their_neighbours :
  forall (search : string -> string -> bool)
         (list_set : list string -> list string)
         notes term k note,
    (forall l, NoDup (list_set l)) ->
    (forall l x, In x (list_set l) <-> In x l) ->
    nth_error notes k = Some note ->
    exists entry,
      nth_error (retrieve_dh_sentences search list_set notes term true) k
      = Some entry
      /\ NoDup entry
      /\ forall s, In s entry <-> near_match search term note s.
Proof.
  intros search list_set notes term k note Hnd Hin Hk.
  exists (list_set (scan search term note 0 note [])).
  split; [|split; [apply Hnd|]].
  - unfold retrieve_dh_sentences. rewrite nth_error_map, Hk. reflexivity.
  - intros s. rewrite Hin. apply SentenceFacts.scan_all.
Qed.

Lemma extended_entry_is_the_matches_and_their_neighbours_witness :
  let search := fun term sentence : string => occurs term sentence in
  let note := ["Seen in clinic."; "Uses a fitness tracker."; "Sleep improved.";
               "Follow up in May."] in
  exists entry,
    nth_error (retrieve_dh_sentences search (nodup string_dec) [note]
                                     "tracker" true) 0
    = Some entry
    /\ forall s, In s entry <-> near_match search "tracker" note s.
Proof.
  intros search note.
  destruct (extended_entry_is_the_matches_and_their_neighbours
              search (nodup string_dec) [note] "tracker" 0%nat note)
    as (entry & Hentry & _ & Hin).
  - intros l. apply NoDup_nodup.
  - intros l x. apply nodup_In.
  - reflexivity.
  - exists entry. split; [exact Hentry | exact Hin].
Defined.

(** X15: both modes return one entry per note.  The plain entry of a note
    is the list of its matching sentences, in the order of the note and
    with their repeats.  Every sentence of the plain entry is in the
    extended entry, and every sentence of the extended entry is a sentence
    of that note.  A note none of whose sentences matches gives an empty
    entry in both modes, and a note with a matching sentence an entry that
    is not empty in either mode. *)
Theorem plain_entry_within_extended_entry_within_note :
  forall (search : string -> string -> bool)
         (list_set : list string -> list string)
         notes term k note,
    (forall l x, In x (list_set l) <-> In x l) ->
    nth_error notes k = Some note ->
    List.length (retrieve_dh_sentences search list_set notes term true)
    = List.length notes
    /\ List.length (retrieve_dh_sentences search list_set notes term false)
       = List.length notes
    /\ exists extended plain,
         nth_error (retrieve_dh_sentences search list_set notes term true) k
         = Some extended
         /\ nth_error (retrieve_dh_sentences search list_set notes term false) k
            = Some plain
         /\ plain = filter (search term) note
         /\ (forall s, In s plain -> In s extended)
         /\ (forall s, In s extended -> In s note)
         /\ ((forall s, In s note -> search term s = false) ->
             plain = [] /\ extended = [])
         /\ ((exists s, In s note /\ search term s = true) ->
             plain <> [] /\ extended <> []).
Proof.
  intros search list_set notes term k note Hin Hk.
  unfold retrieve_dh_sentences. rewrite !length_map.
  split; [reflexivity|]. split; [reflexivity|].
  exists (list_set (scan search term note 0 note [])),
         (filter (search term) note).
  rewrite !nth_error_map, Hk.
  split; [reflexivity|]. split; [reflexivity|]. split; [reflexivity|].
  assert (Hsub : forall s, In s (filter (search term) note) ->
                           In s (list_set (scan search term note 0 note []))).
  { intros s Hs. apply Hin, SentenceFacts.scan_all.
    now apply SentenceFacts.match_is_near. }
  split; [exact Hsub|]. split; [|split].
  - intros s Hs. apply Hin, SentenceFacts.scan_all in Hs.
    now apply SentenceFacts.near_match_in_note in Hs.
  - intros Hnone. split.
    + destruct (filter (search term) note) as [|s l] eqn:E; [reflexivity|].
      exfalso.
      assert (Hs : In s (filter (search term) note)) by (rewrite E; now left).
      apply filter_In in Hs. destruct Hs as [Hs Hm].
      rewrite (Hnone s Hs) in Hm. discriminate.
    + destruct (list_set (scan search term note 0 note [])) as [|s l] eqn:E;
        [reflexivity|].
      exfalso.
      assert (Hs : In s (list_set (scan search term note 0 note [])))
        by (rewrite E; now left).
      apply Hin, SentenceFacts.scan_all in Hs.
      destruct Hs as (i & Hi & Hm & _).
      rewrite (Hnone (nth i note "")) in Hm by (now apply nth_In).
      discriminate.
  - intros (s & Hs & Hm).
    assert (Hplain : In s (filter (search term) note))
      by (apply filter_In; split; [exact Hs | exact Hm]).
    split.
    + intros E. rewrite E in Hplain. exact Hplain.
    + intros E. apply Hsub in Hplain. rewrite E in Hplain. exact Hplain.
Qed.

Lemma plain_entry_within_extended_entry_within_note_witness :
  let search := fun term sentence : string => occurs term sentence in
  let note := ["Seen in clinic."; "Uses a fitness tracker."; "Sleep improved."] in
  exists extended plain,
    nth_error (retrieve_dh_sentences search (nodup string_dec) [note]
                                     "tracker" true) 0 = Some extended
    /\ nth_error (retrieve_dh_sentences search (nodup string_dec) [note]
                                        "tracker" false) 0 = Some plain
    /\ plain = ["Uses a fitness tracker."]
    /\ (forall s, In s plain -> In s extended)
    /\ (forall s, In s extended -> In s note).
Proof.
  intros search note.
  destruct (plain_entry_within_extended_entry_within_note
              search (nodup string_dec) [note] "tracker" 0%nat note)
    as (_ & _ & extended & plain & He & Hp & Hplain & Hsub & Hnote & _).
  - intros l x. apply nodup_In.
  - reflexivity.
  - exists extended, plain.
    split; [exact He|]. split; [exact Hp|].
    split; [rewrite Hplain; reflexivity|].
    split; [exact Hsub | exact Hnote].
Defined.
